(** * LevelUp AI microservice: diet and workout services

    A shallow embedding of [DietController], [DietService] and
    [WorkoutService] (NestJS, TypeScript) and the properties of the
    calorie rescaling and of the regeneration merge.

    JavaScript numbers are IEEE 754 binary64 values; they are modelled by
    [spec_float] with the operations of [SpecFloat] at precision 53 and
    maximal exponent 1024.  [undefined] in an optional field is [None].
    The calls the services await (configuration, the two AI providers, the
    Supabase store) are the nodes of a program tree, each of which may
    answer with a value or by throwing. *)

From Stdlib Require Import ZArith List String Ascii Bool Lia NArith DecimalString.
From Stdlib Require Import Floats.SpecFloat.
Import ListNotations.
Open Scope string_scope.
Open Scope Z_scope.

(** ** JavaScript numbers *)

Module JS.

Definition number := spec_float.

Definition prec : Z := 53.
Definition emax : Z := 1024.

Definition mul : number -> number -> number := SFmul prec emax.
Definition div : number -> number -> number := SFdiv prec emax.
Definition add : number -> number -> number := SFadd prec emax.
Definition ltb : number -> number -> bool := SFltb.

(** The Number value of a mathematical integer (round to nearest, ties
    to even; exact below 2^53). *)
Definition of_Z (z : Z) : number := binary_normalize prec emax z 0 false.

Definition NaN : number := S754_nan.
Definition zero : number := S754_zero false.

Definition isNaN (x : number) : bool :=
  match x with S754_nan => true | _ => false end.

Definition isFinite (x : number) : bool :=
  match x with S754_zero _ | S754_finite _ _ _ => true | _ => false end.

Definition isPositiveFinite (x : number) : bool :=
  match x with S754_finite false _ _ => true | _ => false end.

(** The integer a Number is, when it is one. *)
Definition toInteger (x : number) : option Z :=
  match x with
  | S754_zero _ => Some 0
  | S754_finite s m (Zneg k) =>
      if Zpos m mod 2 ^ Zpos k =? 0
      then Some (cond_Zopp s (Zpos m / 2 ^ Zpos k))
      else None
  | S754_finite s m e => Some (cond_Zopp s (Zpos m * 2 ^ e))
  | _ => None
  end.

(** ToBoolean on a number: [+0], [-0] and [NaN] are falsy. *)
Definition truthy (x : number) : bool :=
  match x with S754_zero _ | S754_nan => false | _ => true end.

(** ToBoolean on a possibly undefined number. *)
Definition truthy_opt (x : option number) : bool :=
  match x with Some v => truthy v | None => false end.

(** ToBoolean on a string: only the empty string is falsy. *)
Definition truthy_str (s : string) : bool :=
  match s with EmptyString => false | _ => true end.

(** [Math.round]: the closest integral Number, ties towards +Infinity;
    a result of zero keeps the sign of the argument; NaN, infinities
    and zeros are returned as they are.  A finite value is
    [(-1)^s * m * 2^e]: with [e >= 0] it is integral already, with
    [e = -k] the result is [floor ((2 * (+-m) + 2^k) / 2^(k+1))]. *)
Definition Math_round (x : number) : number :=
  match x with
  | S754_finite s m (Zneg k) =>
      let sm := cond_Zopp s (Zpos m) in
      match Z.div (2 * sm + 2 ^ Zpos k) (2 ^ (Zpos k + 1)) with
      | Z0 => S754_zero s
      | n => of_Z n
      end
  | _ => x
  end.

(** [x || d] on numbers. *)
Definition or_num (x : option number) (d : number) : number :=
  match x with
  | Some v => if truthy v then v else d
  | None => d
  end.

(** [x || d] on strings. *)
Definition or_str (x : option string) (d : string) : string :=
  match x with
  | Some v => if truthy_str v then v else d
  | None => d
  end.

(** [x || d] on arrays: an array, even an empty one, is truthy. *)
Definition or_arr {A} (x : option (list A)) (d : list A) : list A :=
  match x with
  | Some v => v
  | None => d
  end.

(** An optional string inside a template literal. *)
Definition show (x : option string) : string :=
  match x with Some s => s | None => "undefined" end.

(** Strings whose characters matter one by one (the [calories] path
    parameter) are sequences of UTF-16 code units. *)
Definition code_units := list N.

Definition units (s : string) : code_units :=
  List.map N_of_ascii (list_ascii_of_string s).

(** StrWhiteSpaceChar: WhiteSpace and LineTerminator code points. *)
Definition isStrWhiteSpaceChar (c : N) : bool :=
  ((9 <=? c) && (c <=? 13) || (c =? 32) || (c =? 160) || (c =? 5760)
   || (8192 <=? c) && (c <=? 8202) || (c =? 8232) || (c =? 8233)
   || (c =? 8239) || (c =? 8287) || (c =? 12288) || (c =? 65279))%N.

Fixpoint trimStart (s : code_units) : code_units :=
  match s with
  | c :: s' => if isStrWhiteSpaceChar c then trimStart s' else s
  | [] => []
  end.

Definition isDigit (c : N) : bool := ((48 <=? c) && (c <=? 57))%N.

(** The longest prefix of decimal digits, read as an integer with
    accumulator [acc]; [seen] tells whether a digit has been read. *)
Fixpoint readDigits (s : code_units) (acc : Z) (seen : bool) : option Z :=
  match s with
  | c :: s' =>
      if isDigit c then readDigits s' (10 * acc + (Z.of_N c - 48)) true
      else if seen then Some acc else None
  | [] => if seen then Some acc else None
  end.

(** The sign that [parseInt] reads, and what follows it. *)
Definition readSign (s : code_units) : bool * code_units :=
  match s with
  | 45%N :: s' => (true, s')
  | 43%N :: s' => (false, s')
  | _ => (false, s)
  end.

(** [parseInt(string, 10)]: leading white space is skipped, one sign is
    read, then the longest run of digits; what follows the digits is
    ignored.  [None] is [NaN]; otherwise the mathematical integer read
    ([-0] is read as [0]). *)
Definition parseInt10 (s : code_units) : option Z :=
  let '(negative, rest) := readSign (trimStart s) in
  option_map (fun n => if negative then - n else n) (readDigits rest 0 false).

End JS.

(** ** Data model *)

(** [NutritionItem]: [protein], [carbs] and [fat] are optional. *)
Module NutritionItem.
Record t := {
  name : string;
  quantity : string;
  calories : JS.number;
  protein : option JS.number;
  carbs : option JS.number;
  fat : option JS.number
}.
End NutritionItem.

(** The macros of a meal; [fiber] is optional. *)
Module Macros.
Record t := {
  protein : JS.number;
  carbs : JS.number;
  fat : JS.number;
  fiber : option JS.number
}.
End Macros.

(** The object [calculateTotalMacros] builds: four numbers. *)
Module TotalMacros.
Record t := {
  protein : JS.number;
  carbs : JS.number;
  fat : JS.number;
  fiber : JS.number
}.
End TotalMacros.

Module Meal.
Record t := {
  name : string;
  items : list NutritionItem.t;
  totalCalories : JS.number;
  macros : Macros.t
}.
End Meal.

(** Modelled from the spec: the [DietPlan] interface
    (shared/types/diet.interface) is not among the sources; the fields are
    those of the spec's data model.  [id] is absent until the store
    assigns one. *)
Module DietPlan.
Record t := {
  id : option string;
  userId : string;
  name : string;
  description : string;
  goal : string;
  totalCalories : JS.number;
  targetMacros : TotalMacros.t;
  meals : list Meal.t;
  restrictions : list string
}.
End DietPlan.

(** Modelled from the spec: the [GenerateDietDto] class
    (shared/dto/generate-diet.dto) is not among the sources; [userId],
    [calories] and [goal] are required, the other fields optional. *)
Module GenerateDietDto.
Record t := {
  userId : string;
  calories : JS.number;
  goal : string;
  restrictions : option (list string);
  mealsPerDay : option JS.number;
  targetProtein : option JS.number;
  preferredFoods : option (list string);
  avoidFoods : option (list string);
  preferences : option string
}.
End GenerateDietDto.

(** [Partial<GenerateDietDto>]: every field may be undefined. *)
Module PartialDietDto.
Record t := {
  userId : option string;
  calories : option JS.number;
  goal : option string;
  restrictions : option (list string);
  mealsPerDay : option JS.number;
  targetProtein : option JS.number;
  preferredFoods : option (list string);
  avoidFoods : option (list string);
  preferences : option string
}.
End PartialDietDto.

(** What a provider's [generateDietPlan] resolves to. *)
Module DietDraft.
Record t := {
  name : string;
  description : string;
  meals : list Meal.t
}.
End DietDraft.

(** Untyped provider data ([any] in the source): the exercises of a
    workout draft are passed through as the provider returned them. *)
Module Json.
#[local] Unset Elimination Schemes.
Inductive t :=
| Null
| Bool (b : bool)
| Num (n : JS.number)
| Str (s : string)
| Arr (l : list t)
| Obj (fields : list (string * t)).
End Json.

(** Modelled from the spec: the [WorkoutPlan] interface
    (shared/types/workout.interface) is not among the sources. *)
Module WorkoutPlan.
Record t := {
  id : option string;
  userId : string;
  name : string;
  description : string;
  difficulty : string;
  goal : string;
  daysPerWeek : JS.number;
  estimatedDuration : JS.number;
  exercises : Json.t
}.
End WorkoutPlan.

(** Modelled from the spec: the [GenerateWorkoutDto] class
    (shared/dto/generate-workout.dto) is not among the sources. *)
Module GenerateWorkoutDto.
Record t := {
  userId : string;
  goal : string;
  difficulty : string;
  daysPerWeek : JS.number;
  duration : JS.number;
  equipment : option (list string);
  targetMuscles : option (list string);
  preferences : option string
}.
End GenerateWorkoutDto.

Module PartialWorkoutDto.
Record t := {
  userId : option string;
  goal : option string;
  difficulty : option string;
  daysPerWeek : option JS.number;
  duration : option JS.number;
  equipment : option (list string);
  targetMuscles : option (list string);
  preferences : option string
}.
End PartialWorkoutDto.

Module WorkoutDraft.
Record t := {
  name : string;
  description : string;
  exercises : Json.t
}.
End WorkoutDraft.

(** Modelled from the spec: the response envelope (shared/utils/api-response)
    is not among the sources: [{success: true, data, message?}] or
    [{success: false, error, message?}]. *)
Module ApiResponse.
Record t (T : Type) := {
  success : bool;
  data : option T;
  error : option string;
  message : option string
}.
Arguments success {T}.
Arguments data {T}.
Arguments error {T}.
Arguments message {T}.
End ApiResponse.

Definition createSuccessResponse {T} (data : T) (message : option string)
  : ApiResponse.t T :=
  {| ApiResponse.success := true;
     ApiResponse.data := Some data;
     ApiResponse.error := None;
     ApiResponse.message := message |}.

Definition createErrorResponse {T} (error : string) (message : option string)
  : ApiResponse.t T :=
  {| ApiResponse.success := false;
     ApiResponse.data := None;
     ApiResponse.error := Some error;
     ApiResponse.message := message |}.

(** ** Awaited calls and programs *)

(** The calls a service awaits on its collaborators, indexed by what they
    resolve to. *)
Inductive Call : Type -> Type :=
| ConfigGet (key : string) : Call (option string)
| GeminiGenerateDietPlan (dto : GenerateDietDto.t) : Call DietDraft.t
| OpenAiGenerateDietPlan (dto : GenerateDietDto.t) : Call DietDraft.t
| GeminiGenerateWorkoutPlan (dto : GenerateWorkoutDto.t) : Call WorkoutDraft.t
| OpenAiGenerateWorkoutPlan (dto : GenerateWorkoutDto.t) : Call WorkoutDraft.t
| GetDietPlan (planId : string) : Call (option DietPlan.t)
| SaveDietPlan (plan : DietPlan.t) : Call DietPlan.t
| GetWorkoutPlan (planId : string) : Call (option WorkoutPlan.t)
| SaveWorkoutPlan (plan : WorkoutPlan.t) : Call WorkoutPlan.t.

(** A call resolves or rejects; a rejection carries [error.message]. *)
Inductive Outcome (R : Type) : Type :=
| Returned (r : R)
| Threw (message : string).
Arguments Returned {R}.
Arguments Threw {R}.

Inductive Prog (A : Type) : Type :=
| Ret (a : A)
| LoggerLog (msg : string) (k : Prog A)
| LoggerError (msg : string) (error : string) (k : Prog A)
| Do {R : Type} (c : Call R) (k : Outcome R -> Prog A).
Arguments Ret {A}.
Arguments LoggerLog {A}.
Arguments LoggerError {A}.
Arguments Do {A R}.

Fixpoint bind {A B} (p : Prog A) (f : A -> Prog B) : Prog B :=
  match p with
  | Ret a => f a
  | LoggerLog msg k => LoggerLog msg (bind k f)
  | LoggerError msg e k => LoggerError msg e (bind k f)
  | Do c k => Do c (fun o => bind (k o) f)
  end.

(** The body of a [try] block: it completes with a value or with the
    error thrown so far. *)
Definition Try (A : Type) : Type := Prog (Outcome A).

Definition ret {A} (a : A) : Try A := Ret (Returned a).

Definition bindT {A B} (p : Try A) (f : A -> Try B) : Try B :=
  bind p (fun o => match o with
                   | Returned a => f a
                   | Threw e => Ret (Threw e)
                   end).

(** [await c] inside a [try] block. *)
Definition await {R} (c : Call R) : Try R := Do c Ret.

(** A call of an async method that catches all its errors itself. *)
Definition awaitProg {A} (p : Prog A) : Try A := bind p ret.

Definition log (msg : string) : Try unit := LoggerLog msg (ret tt).

(** [try { body } catch (error) { handler }]. *)
Definition try_catch {A} (body : Try A) (handler : string -> Prog A) : Prog A :=
  bind body (fun o => match o with
                      | Returned a => Ret a
                      | Threw e => handler e
                      end).

Notation "x <- c ;; k" := (bindT c (fun x => k))
  (at level 61, c at next level, right associativity).
Notation "c ;;; k" := (bindT c (fun _ => k))
  (at level 61, right associativity).


(** ** DietService *)

Module DietService.

(** [calculateTotalMacros]: a [reduce] from the left over the meals,
    starting from four zeros; an undefined (or falsy) [fiber] adds 0. *)
Definition calculateTotalMacros (meals : list Meal.t) : TotalMacros.t :=
  fold_left
    (fun total meal =>
       {| TotalMacros.protein :=
            JS.add (TotalMacros.protein total) (Macros.protein (Meal.macros meal));
          TotalMacros.carbs :=
            JS.add (TotalMacros.carbs total) (Macros.carbs (Meal.macros meal));
          TotalMacros.fat :=
            JS.add (TotalMacros.fat total) (Macros.fat (Meal.macros meal));
          TotalMacros.fiber :=
            JS.add (TotalMacros.fiber total)
                   (JS.or_num (Macros.fiber (Meal.macros meal)) JS.zero) |})
    meals
    {| TotalMacros.protein := JS.zero; TotalMacros.carbs := JS.zero;
       TotalMacros.fat := JS.zero; TotalMacros.fiber := JS.zero |}.

(** The object [generateDiet] hands to the store. *)
Definition dietPlan (dto : GenerateDietDto.t) (aiResponse : DietDraft.t)
  : DietPlan.t :=
  let totalMacros := calculateTotalMacros (DietDraft.meals aiResponse) in
  {| DietPlan.id := None;
     DietPlan.userId := GenerateDietDto.userId dto;
     DietPlan.name := DietDraft.name aiResponse;
     DietPlan.description := DietDraft.description aiResponse;
     DietPlan.goal := GenerateDietDto.goal dto;
     DietPlan.totalCalories := GenerateDietDto.calories dto;
     DietPlan.targetMacros := totalMacros;
     DietPlan.meals := DietDraft.meals aiResponse;
     DietPlan.restrictions := JS.or_arr (GenerateDietDto.restrictions dto) [] |}.

Definition generateDiet (dto : GenerateDietDto.t)
  : Prog (ApiResponse.t DietPlan.t) :=
  try_catch
    (log ("Generating diet plan for user: " ++ GenerateDietDto.userId dto) ;;;
     configured <- await (ConfigGet "ai.defaultProvider") ;;
     let provider := JS.or_str configured "openai" in
     aiResponse <-
       (if String.eqb provider "gemini"
        then await (GeminiGenerateDietPlan dto)
        else await (OpenAiGenerateDietPlan dto)) ;;
     savedDiet <- await (SaveDietPlan (dietPlan dto aiResponse)) ;;
     log ("Diet plan generated successfully for user: "
            ++ GenerateDietDto.userId dto ++ ", ID: "
            ++ JS.show (DietPlan.id savedDiet)) ;;;
     ret (createSuccessResponse savedDiet (Some "Diet plan generated successfully")))
    (fun error =>
       LoggerError "Error generating diet plan:" error
         (Ret (createErrorResponse error (Some "Failed to generate diet plan")))).

Definition getDiet (planId : string) : Prog (ApiResponse.t DietPlan.t) :=
  try_catch
    (dietPlan <- await (GetDietPlan planId) ;;
     match dietPlan with
     | None =>
         ret (createErrorResponse "Diet plan not found"
                (Some "The requested diet plan does not exist"))
     | Some dietPlan => ret (createSuccessResponse dietPlan None)
     end)
    (fun error =>
       LoggerError "Error fetching diet plan:" error
         (Ret (createErrorResponse error (Some "Failed to fetch diet plan")))).

(** The merge of the stored plan with the modifications. *)
Definition updatedDto (existingPlan : DietPlan.t) (modifications : PartialDietDto.t)
  : GenerateDietDto.t :=
  {| GenerateDietDto.userId := DietPlan.userId existingPlan;
     GenerateDietDto.calories :=
       JS.or_num (PartialDietDto.calories modifications)
                 (DietPlan.totalCalories existingPlan);
     GenerateDietDto.goal :=
       JS.or_str (PartialDietDto.goal modifications) (DietPlan.goal existingPlan);
     GenerateDietDto.restrictions :=
       Some (JS.or_arr (PartialDietDto.restrictions modifications)
                       (DietPlan.restrictions existingPlan));
     GenerateDietDto.mealsPerDay := PartialDietDto.mealsPerDay modifications;
     GenerateDietDto.targetProtein := PartialDietDto.targetProtein modifications;
     GenerateDietDto.preferredFoods := PartialDietDto.preferredFoods modifications;
     GenerateDietDto.avoidFoods := PartialDietDto.avoidFoods modifications;
     GenerateDietDto.preferences := PartialDietDto.preferences modifications |}.

Definition regenerateDiet (planId : string) (modifications : PartialDietDto.t)
  : Prog (ApiResponse.t DietPlan.t) :=
  try_catch
    (existingPlan <- await (GetDietPlan planId) ;;
     match existingPlan with
     | None =>
         ret (createErrorResponse "Diet plan not found"
                (Some "Cannot regenerate non-existent plan"))
     | Some existingPlan =>
         awaitProg (generateDiet (updatedDto existingPlan modifications))
     end)
    (fun error =>
       LoggerError "Error regenerating diet plan:" error
         (Ret (createErrorResponse error (Some "Failed to regenerate diet plan")))).

Definition scalingFactor (newCalories : JS.number) (existingPlan : DietPlan.t)
  : JS.number :=
  JS.div newCalories (DietPlan.totalCalories existingPlan).

(** [Math.round(x * scalingFactor)]. *)
Definition scale (x scalingFactor : JS.number) : JS.number :=
  JS.Math_round (JS.mul x scalingFactor).

(** [x ? Math.round(x * scalingFactor) : undefined]. *)
Definition scaleIfTruthy (x : option JS.number) (scalingFactor : JS.number)
  : option JS.number :=
  if JS.truthy_opt x
  then option_map (fun v => scale v scalingFactor) x
  else None.

Definition adjustedItem (scalingFactor : JS.number) (item : NutritionItem.t)
  : NutritionItem.t :=
  {| NutritionItem.name := NutritionItem.name item;
     NutritionItem.quantity := NutritionItem.quantity item;
     NutritionItem.calories := scale (NutritionItem.calories item) scalingFactor;
     NutritionItem.protein := scaleIfTruthy (NutritionItem.protein item) scalingFactor;
     NutritionItem.carbs := scaleIfTruthy (NutritionItem.carbs item) scalingFactor;
     NutritionItem.fat := scaleIfTruthy (NutritionItem.fat item) scalingFactor |}.

Definition adjustedMeal (scalingFactor : JS.number) (meal : Meal.t) : Meal.t :=
  {| Meal.name := Meal.name meal;
     Meal.totalCalories := scale (Meal.totalCalories meal) scalingFactor;
     Meal.items := List.map (adjustedItem scalingFactor) (Meal.items meal);
     Meal.macros :=
       {| Macros.protein := scale (Macros.protein (Meal.macros meal)) scalingFactor;
          Macros.carbs := scale (Macros.carbs (Meal.macros meal)) scalingFactor;
          Macros.fat := scale (Macros.fat (Meal.macros meal)) scalingFactor;
          Macros.fiber :=
            scaleIfTruthy (Macros.fiber (Meal.macros meal)) scalingFactor |} |}.

Definition adjustedMeals (existingPlan : DietPlan.t) (newCalories : JS.number)
  : list Meal.t :=
  List.map (adjustedMeal (scalingFactor newCalories existingPlan))
           (DietPlan.meals existingPlan).

(** [{...existingPlan, totalCalories, meals, targetMacros}]. *)
Definition adjustedPlan (existingPlan : DietPlan.t) (newCalories : JS.number)
  : DietPlan.t :=
  {| DietPlan.id := DietPlan.id existingPlan;
     DietPlan.userId := DietPlan.userId existingPlan;
     DietPlan.name := DietPlan.name existingPlan;
     DietPlan.description := DietPlan.description existingPlan;
     DietPlan.goal := DietPlan.goal existingPlan;
     DietPlan.totalCalories := newCalories;
     DietPlan.targetMacros :=
       calculateTotalMacros (adjustedMeals existingPlan newCalories);
     DietPlan.meals := adjustedMeals existingPlan newCalories;
     DietPlan.restrictions := DietPlan.restrictions existingPlan |}.

Definition adjustCalories (planId : string) (newCalories : JS.number)
  : Prog (ApiResponse.t DietPlan.t) :=
  try_catch
    (existingPlan <- await (GetDietPlan planId) ;;
     match existingPlan with
     | None =>
         ret (createErrorResponse "Diet plan not found"
                (Some "Cannot adjust calories for non-existent plan"))
     | Some existingPlan =>
         savedDiet <- await (SaveDietPlan (adjustedPlan existingPlan newCalories)) ;;
         ret (createSuccessResponse savedDiet
                (Some "Diet plan calories adjusted successfully"))
     end)
    (fun error =>
       LoggerError "Error adjusting diet calories:" error
         (Ret (createErrorResponse error (Some "Failed to adjust diet calories")))).

End DietService.

(** ** DietController *)

Module DietController.

Definition generateDiet (generateDietDto : GenerateDietDto.t) :=
  DietService.generateDiet generateDietDto.

Definition getDiet (id : string) := DietService.getDiet id.

Definition regenerateDiet (id : string) (modifications : PartialDietDto.t) :=
  DietService.regenerateDiet id modifications.

Definition invalidCalories : ApiResponse.t DietPlan.t :=
  {| ApiResponse.success := false;
     ApiResponse.data := None;
     ApiResponse.error :=
       Some "Invalid calories value. Must be between 1000 and 5000.";
     ApiResponse.message := None |}.

(** The comparisons with 1000 and 5000 are made on the integer that
    [parseInt] read: the conversion to a Number is monotone and exact on
    both bounds, so they come out the same. *)
Definition adjustCalories (id : string) (calories : JS.code_units)
  : Prog (ApiResponse.t DietPlan.t) :=
  match JS.parseInt10 calories with
  | None => Ret invalidCalories
  | Some newCalories =>
      if (newCalories <? 1000) || (newCalories >? 5000)
      then Ret invalidCalories
      else DietService.adjustCalories id (JS.of_Z newCalories)
  end.

End DietController.

(** ** WorkoutService *)

Module WorkoutService.

Definition workoutPlan (dto : GenerateWorkoutDto.t) (aiResponse : WorkoutDraft.t)
  : WorkoutPlan.t :=
  {| WorkoutPlan.id := None;
     WorkoutPlan.userId := GenerateWorkoutDto.userId dto;
     WorkoutPlan.name := WorkoutDraft.name aiResponse;
     WorkoutPlan.description := WorkoutDraft.description aiResponse;
     WorkoutPlan.difficulty := GenerateWorkoutDto.difficulty dto;
     WorkoutPlan.goal := GenerateWorkoutDto.goal dto;
     WorkoutPlan.daysPerWeek := GenerateWorkoutDto.daysPerWeek dto;
     WorkoutPlan.estimatedDuration := GenerateWorkoutDto.duration dto;
     WorkoutPlan.exercises := WorkoutDraft.exercises aiResponse |}.

Definition generateWorkout (dto : GenerateWorkoutDto.t)
  : Prog (ApiResponse.t WorkoutPlan.t) :=
  try_catch
    (log ("Generating workout for user: " ++ GenerateWorkoutDto.userId dto) ;;;
     configured <- await (ConfigGet "ai.defaultProvider") ;;
     let provider := JS.or_str configured "openai" in
     aiResponse <-
       (if String.eqb provider "gemini"
        then await (GeminiGenerateWorkoutPlan dto)
        else await (OpenAiGenerateWorkoutPlan dto)) ;;
     savedWorkout <- await (SaveWorkoutPlan (workoutPlan dto aiResponse)) ;;
     log ("Workout generated successfully for user: "
            ++ GenerateWorkoutDto.userId dto ++ ", ID: "
            ++ JS.show (WorkoutPlan.id savedWorkout)) ;;;
     ret (createSuccessResponse savedWorkout
            (Some "Workout plan generated successfully")))
    (fun error =>
       LoggerError "Error generating workout:" error
         (Ret (createErrorResponse error (Some "Failed to generate workout plan")))).

Definition getWorkout (planId : string) : Prog (ApiResponse.t WorkoutPlan.t) :=
  try_catch
    (workoutPlan <- await (GetWorkoutPlan planId) ;;
     match workoutPlan with
     | None =>
         ret (createErrorResponse "Workout plan not found"
                (Some "The requested workout plan does not exist"))
     | Some workoutPlan => ret (createSuccessResponse workoutPlan None)
     end)
    (fun error =>
       LoggerError "Error fetching workout:" error
         (Ret (createErrorResponse error (Some "Failed to fetch workout plan")))).

(** The merge of the stored plan with the modifications. *)
Definition updatedDto (existingPlan : WorkoutPlan.t)
           (modifications : PartialWorkoutDto.t) : GenerateWorkoutDto.t :=
  {| GenerateWorkoutDto.userId := WorkoutPlan.userId existingPlan;
     GenerateWorkoutDto.goal :=
       JS.or_str (PartialWorkoutDto.goal modifications)
                 (WorkoutPlan.goal existingPlan);
     GenerateWorkoutDto.difficulty :=
       JS.or_str (PartialWorkoutDto.difficulty modifications)
                 (WorkoutPlan.difficulty existingPlan);
     GenerateWorkoutDto.daysPerWeek :=
       JS.or_num (PartialWorkoutDto.daysPerWeek modifications)
                 (WorkoutPlan.daysPerWeek existingPlan);
     GenerateWorkoutDto.duration :=
       JS.or_num (PartialWorkoutDto.duration modifications)
                 (WorkoutPlan.estimatedDuration existingPlan);
     GenerateWorkoutDto.equipment := PartialWorkoutDto.equipment modifications;
     GenerateWorkoutDto.targetMuscles :=
       PartialWorkoutDto.targetMuscles modifications;
     GenerateWorkoutDto.preferences :=
       PartialWorkoutDto.preferences modifications |}.

Definition regenerateWorkout (planId : string)
           (modifications : PartialWorkoutDto.t)
  : Prog (ApiResponse.t WorkoutPlan.t) :=
  try_catch
    (existingPlan <- await (GetWorkoutPlan planId) ;;
     match existingPlan with
     | None =>
         ret (createErrorResponse "Workout plan not found"
                (Some "Cannot regenerate non-existent plan"))
     | Some existingPlan =>
         awaitProg (generateWorkout (updatedDto existingPlan modifications))
     end)
    (fun error =>
       LoggerError "Error regenerating workout:" error
         (Ret (createErrorResponse error
                 (Some "Failed to regenerate workout plan")))).

End WorkoutService.

(** ** Running a program against its collaborators *)

(** What a run leaves behind: the calls made and the lines logged. *)
Inductive Event : Type :=
| Called {R : Type} (c : Call R)
| Logged (msg : string)
| LoggedError (msg : string) (error : string).

(** The collaborators answer a call from their state [W] and move to a new
    state. *)
Definition Handler (W : Type) : Type :=
  forall R : Type, Call R -> W -> Outcome R * W.

Fixpoint run {W A} (h : Handler W) (p : Prog A) (w : W) : A * W * list Event :=
  match p with
  | Ret a => (a, w, [])
  | LoggerLog msg k =>
      let '(a, w', t) := run h k w in (a, w', Logged msg :: t)
  | LoggerError msg e k =>
      let '(a, w', t) := run h k w in (a, w', LoggedError msg e :: t)
  | Do c k =>
      let '(o, w1) := h _ c w in
      let '(a, w', t) := run h (k o) w1 in (a, w', Called c :: t)
  end.

Definition result {W A} (r : A * W * list Event) : A := fst (fst r).
Definition trace {W A} (r : A * W * list Event) : list Event := snd r.
Definition final {W A} (r : A * W * list Event) : W := snd (fst r).

(** The store calls of a trace. *)
Definition isStoreCall (e : Event) : bool :=
  match e with
  | Called c =>
      match c with
      | GetDietPlan _ | SaveDietPlan _ | GetWorkoutPlan _ | SaveWorkoutPlan _ => true
      | _ => false
      end
  | _ => false
  end.

(** The plans handed to [saveDietPlan] during a run, in order. *)
Fixpoint savedDietPlans (t : list Event) : list DietPlan.t :=
  match t with
  | Called c :: t' =>
      match c with
      | SaveDietPlan plan => plan :: savedDietPlans t'
      | _ => savedDietPlans t'
      end
  | _ :: t' => savedDietPlans t'
  | [] => []
  end.

(** ** The statements of the specification *)

Module Spec.

(** [x'] is [x] scaled by [factor] and rounded. *)
Definition Scaled (factor x x' : JS.number) : Prop :=
  x' = JS.Math_round (JS.mul x factor).

(** An optional quantity is scaled if and only if it is present. *)
Definition ScaledIfPresent (factor : JS.number) (x x' : option JS.number) : Prop :=
  match x with
  | Some v => x' = Some (JS.Math_round (JS.mul v factor))
  | None => x' = None
  end.

(** The required part of a scaled item: same name and quantity, scaled
    calories. *)
Definition ScaledItem (factor : JS.number) (i i' : NutritionItem.t) : Prop :=
  NutritionItem.name i' = NutritionItem.name i /\
  NutritionItem.quantity i' = NutritionItem.quantity i /\
  Scaled factor (NutritionItem.calories i) (NutritionItem.calories i').

(** The required part of a scaled meal. *)
Definition ScaledMeal (factor : JS.number) (m m' : Meal.t) : Prop :=
  Meal.name m' = Meal.name m /\
  Scaled factor (Meal.totalCalories m) (Meal.totalCalories m') /\
  Scaled factor (Macros.protein (Meal.macros m)) (Macros.protein (Meal.macros m')) /\
  Scaled factor (Macros.carbs (Meal.macros m)) (Macros.carbs (Meal.macros m')) /\
  Scaled factor (Macros.fat (Meal.macros m)) (Macros.fat (Meal.macros m')) /\
  Forall2 (ScaledItem factor) (Meal.items m) (Meal.items m').

(** The optional part: presence is kept, present values are scaled. *)
Definition OptionalsOfItem (factor : JS.number) (i i' : NutritionItem.t) : Prop :=
  ScaledIfPresent factor (NutritionItem.protein i) (NutritionItem.protein i') /\
  ScaledIfPresent factor (NutritionItem.carbs i) (NutritionItem.carbs i') /\
  ScaledIfPresent factor (NutritionItem.fat i) (NutritionItem.fat i').

Definition OptionalsOfMeal (factor : JS.number) (m m' : Meal.t) : Prop :=
  ScaledIfPresent factor (Macros.fiber (Meal.macros m)) (Macros.fiber (Meal.macros m')) /\
  Forall2 (OptionalsOfItem factor) (Meal.items m) (Meal.items m').

(** An optional quantity that is absent, or present and truthy. *)
Definition TruthyIfPresent (x : option JS.number) : Prop :=
  match x with
  | Some v => JS.truthy v = true
  | None => True
  end.

Definition TruthyOptionalsOfItem (i : NutritionItem.t) : Prop :=
  TruthyIfPresent (NutritionItem.protein i) /\
  TruthyIfPresent (NutritionItem.carbs i) /\
  TruthyIfPresent (NutritionItem.fat i).

Definition TruthyOptionalsOfMeal (m : Meal.t) : Prop :=
  TruthyIfPresent (Macros.fiber (Meal.macros m)) /\
  Forall TruthyOptionalsOfItem (Meal.items m).

(** An optional quantity that is exactly zero. *)
Definition isZero (x : option JS.number) : bool :=
  match x with Some (S754_zero _) => true | _ => false end.

(** Zero-valued optional quantities of [i] are absent in [i']. *)
Definition ZerosDroppedItem (i i' : NutritionItem.t) : Prop :=
  (isZero (NutritionItem.protein i) = true -> NutritionItem.protein i' = None) /\
  (isZero (NutritionItem.carbs i) = true -> NutritionItem.carbs i' = None) /\
  (isZero (NutritionItem.fat i) = true -> NutritionItem.fat i' = None).

Definition ZerosDroppedMeal (m m' : Meal.t) : Prop :=
  (isZero (Macros.fiber (Meal.macros m)) = true ->
   Macros.fiber (Meal.macros m') = None) /\
  Forall2 ZerosDroppedItem (Meal.items m) (Meal.items m').

(** No finite quantity among the required ones of a meal. *)
Definition NothingFinite (m : Meal.t) : Prop :=
  JS.isFinite (Meal.totalCalories m) = false /\
  JS.isFinite (Macros.protein (Meal.macros m)) = false /\
  JS.isFinite (Macros.carbs (Meal.macros m)) = false /\
  JS.isFinite (Macros.fat (Meal.macros m)) = false /\
  Forall (fun i => JS.isFinite (NutritionItem.calories i) = false) (Meal.items m).

(** The totals of [P'] are the sums, from the left and from zero, of
    the macros of its own meals. *)
Definition SumsOfOwnMeals (P' : DietPlan.t) : Prop :=
  let meals := DietPlan.meals P' in
  let total := DietPlan.targetMacros P' in
  TotalMacros.protein total
  = fold_left JS.add (map (fun m => Macros.protein (Meal.macros m)) meals) JS.zero /\
  TotalMacros.carbs total
  = fold_left JS.add (map (fun m => Macros.carbs (Meal.macros m)) meals) JS.zero /\
  TotalMacros.fat total
  = fold_left JS.add (map (fun m => Macros.fat (Meal.macros m)) meals) JS.zero /\
  TotalMacros.fiber total
  = fold_left JS.add
      (map (fun m => JS.or_num (Macros.fiber (Meal.macros m)) JS.zero) meals) JS.zero.

(** The part of a rescaling that does not concern the optional
    quantities: the new total, the required quantities of every meal and
    item scaled, the totals summed from the new meals, every other field
    as in [P]. *)
Definition RescaledRequired (P : DietPlan.t) (T : Z) (P' : DietPlan.t) : Prop :=
  DietPlan.totalCalories P' = JS.of_Z T /\
  JS.toInteger (DietPlan.totalCalories P') = Some T /\
  Forall2 (ScaledMeal (JS.div (JS.of_Z T) (DietPlan.totalCalories P)))
          (DietPlan.meals P) (DietPlan.meals P') /\
  SumsOfOwnMeals P' /\
  DietPlan.id P' = DietPlan.id P /\
  DietPlan.userId P' = DietPlan.userId P /\
  DietPlan.name P' = DietPlan.name P /\
  DietPlan.description P' = DietPlan.description P /\
  DietPlan.goal P' = DietPlan.goal P /\
  DietPlan.restrictions P' = DietPlan.restrictions P.

(** [P'] is [P] rescaled to the target [T]: besides the above, every
    optional quantity (an item's protein, carbs and fat, a meal's fiber)
    is present in [P'] exactly when it is present in [P], with the
    scaled value. *)
Definition Rescaled (P : DietPlan.t) (T : Z) (P' : DietPlan.t) : Prop :=
  RescaledRequired P T P' /\
  Forall2 (OptionalsOfMeal (JS.div (JS.of_Z T) (DietPlan.totalCalories P)))
          (DietPlan.meals P) (DietPlan.meals P').

(** The original aggregate, scaled afterwards. *)
Definition scaledAggregate (factor : JS.number) (meals : list Meal.t)
  : TotalMacros.t :=
  let total := DietService.calculateTotalMacros meals in
  {| TotalMacros.protein := JS.Math_round (JS.mul (TotalMacros.protein total) factor);
     TotalMacros.carbs := JS.Math_round (JS.mul (TotalMacros.carbs total) factor);
     TotalMacros.fat := JS.Math_round (JS.mul (TotalMacros.fat total) factor);
     TotalMacros.fiber := JS.Math_round (JS.mul (TotalMacros.fiber total) factor) |}.

(** A decimal integer numeral: an optional sign, then digits and
    nothing else. *)
Definition isIntegerNumeral (s : JS.code_units) : bool :=
  let digits := snd (JS.readSign s) in
  match digits with
  | [] => false
  | _ => forallb JS.isDigit digits
  end.

(** The longest prefix of decimal digits. *)
Fixpoint leadingDigits (s : JS.code_units) : JS.code_units :=
  match s with
  | c :: s' => if JS.isDigit c then c :: leadingDigits s' else []
  | [] => []
  end.

(** The integer a sequence of digits denotes, after [acc]. *)
Definition decimal (acc : Z) (digits : JS.code_units) : Z :=
  fold_left (fun a c => 10 * a + (Z.of_N c - 48)) digits acc.

(** The signed integer a parameter starts with, after white space. *)
Definition leadingInteger (s : JS.code_units) : Z :=
  let '(negative, rest) := JS.readSign (JS.trimStart s) in
  let n := decimal 0 (leadingDigits rest) in
  if negative then - n else n.

Definition hasLeadingDigits (s : JS.code_units) : bool :=
  match leadingDigits (snd (JS.readSign (JS.trimStart s))) with
  | [] => false
  | _ => true
  end.

(** A partial diet request with its [userId] replaced. *)
Definition withUserId (u : option string) (m : PartialDietDto.t) : PartialDietDto.t :=
  {| PartialDietDto.userId := u;
     PartialDietDto.calories := PartialDietDto.calories m;
     PartialDietDto.goal := PartialDietDto.goal m;
     PartialDietDto.restrictions := PartialDietDto.restrictions m;
     PartialDietDto.mealsPerDay := PartialDietDto.mealsPerDay m;
     PartialDietDto.targetProtein := PartialDietDto.targetProtein m;
     PartialDietDto.preferredFoods := PartialDietDto.preferredFoods m;
     PartialDietDto.avoidFoods := PartialDietDto.avoidFoods m;
     PartialDietDto.preferences := PartialDietDto.preferences m |}.

Definition withWorkoutUserId (u : option string) (m : PartialWorkoutDto.t)
  : PartialWorkoutDto.t :=
  {| PartialWorkoutDto.userId := u;
     PartialWorkoutDto.goal := PartialWorkoutDto.goal m;
     PartialWorkoutDto.difficulty := PartialWorkoutDto.difficulty m;
     PartialWorkoutDto.daysPerWeek := PartialWorkoutDto.daysPerWeek m;
     PartialWorkoutDto.duration := PartialWorkoutDto.duration m;
     PartialWorkoutDto.equipment := PartialWorkoutDto.equipment m;
     PartialWorkoutDto.targetMuscles := PartialWorkoutDto.targetMuscles m;
     PartialWorkoutDto.preferences := PartialWorkoutDto.preferences m |}.

(** The merge as the code has it: the modification when it is present
    and truthy, the stored value otherwise. *)
Definition MergedIfTruthy {A} (truthy : A -> bool) (modification : option A)
           (stored merged : A) : Prop :=
  match modification with
  | Some v => if truthy v then merged = v else merged = stored
  | None => merged = stored
  end.

(** The merge as the specification words it: the modification when it
    is present, the stored value otherwise. *)
Definition ifPresent {A} (modification : option A) (stored : A) : A :=
  match modification with
  | Some v => v
  | None => stored
  end.

End Spec.

(** The generation requests that reached a provider during a run. *)
Fixpoint dietRequests (t : list Event) : list GenerateDietDto.t :=
  match t with
  | Called c :: t' =>
      match c with
      | GeminiGenerateDietPlan dto | OpenAiGenerateDietPlan dto =>
          dto :: dietRequests t'
      | _ => dietRequests t'
      end
  | _ :: t' => dietRequests t'
  | [] => []
  end.

Fixpoint workoutRequests (t : list Event) : list GenerateWorkoutDto.t :=
  match t with
  | Called c :: t' =>
      match c with
      | GeminiGenerateWorkoutPlan dto | OpenAiGenerateWorkoutPlan dto =>
          dto :: workoutRequests t'
      | _ => workoutRequests t'
      end
  | _ :: t' => workoutRequests t'
  | [] => []
  end.

(** ** A sample deployment *)

(** Collaborators to run the services against: a fixed configuration,
    providers that return fixed drafts, and a store in memory that assigns
    the id ["new"] to a plan saved without one. *)
Module Sample.

Record World := {
  config : option string;
  dietDraft : DietDraft.t;
  workoutDraft : WorkoutDraft.t;
  dietPlans : list (string * DietPlan.t);
  workoutPlans : list (string * WorkoutPlan.t)
}.

Fixpoint lookup {A} (k : string) (l : list (string * A)) : option A :=
  match l with
  | (k', v) :: l' => if String.eqb k k' then Some v else lookup k l'
  | [] => None
  end.

Definition identified (plan : DietPlan.t) : DietPlan.t :=
  {| DietPlan.id := Some (JS.or_str (DietPlan.id plan) "new");
     DietPlan.userId := DietPlan.userId plan;
     DietPlan.name := DietPlan.name plan;
     DietPlan.description := DietPlan.description plan;
     DietPlan.goal := DietPlan.goal plan;
     DietPlan.totalCalories := DietPlan.totalCalories plan;
     DietPlan.targetMacros := DietPlan.targetMacros plan;
     DietPlan.meals := DietPlan.meals plan;
     DietPlan.restrictions := DietPlan.restrictions plan |}.

Definition identifiedWorkout (plan : WorkoutPlan.t) : WorkoutPlan.t :=
  {| WorkoutPlan.id := Some (JS.or_str (WorkoutPlan.id plan) "new");
     WorkoutPlan.userId := WorkoutPlan.userId plan;
     WorkoutPlan.name := WorkoutPlan.name plan;
     WorkoutPlan.description := WorkoutPlan.description plan;
     WorkoutPlan.difficulty := WorkoutPlan.difficulty plan;
     WorkoutPlan.goal := WorkoutPlan.goal plan;
     WorkoutPlan.daysPerWeek := WorkoutPlan.daysPerWeek plan;
     WorkoutPlan.estimatedDuration := WorkoutPlan.estimatedDuration plan;
     WorkoutPlan.exercises := WorkoutPlan.exercises plan |}.

Definition handler : Handler World :=
  fun R c w =>
    match c in Call R return Outcome R * World with
    | ConfigGet _ => (Returned (config w), w)
    | GeminiGenerateDietPlan _ | OpenAiGenerateDietPlan _ =>
        (Returned (dietDraft w), w)
    | GeminiGenerateWorkoutPlan _ | OpenAiGenerateWorkoutPlan _ =>
        (Returned (workoutDraft w), w)
    | GetDietPlan planId => (Returned (lookup planId (dietPlans w)), w)
    | SaveDietPlan plan =>
        let saved := identified plan in
        (Returned saved,
         {| config := config w; dietDraft := dietDraft w;
            workoutDraft := workoutDraft w;
            dietPlans := (JS.show (DietPlan.id saved), saved) :: dietPlans w;
            workoutPlans := workoutPlans w |})
    | GetWorkoutPlan planId => (Returned (lookup planId (workoutPlans w)), w)
    | SaveWorkoutPlan plan =>
        let saved := identifiedWorkout plan in
        (Returned saved,
         {| config := config w; dietDraft := dietDraft w;
            workoutDraft := workoutDraft w;
            dietPlans := dietPlans w;
            workoutPlans := (JS.show (WorkoutPlan.id saved), saved) :: workoutPlans w |})
    end.

Definition num (z : Z) : JS.number := JS.of_Z z.

Definition item (name quantity : string) (calories : Z) (protein carbs fat : Z)
  : NutritionItem.t :=
  {| NutritionItem.name := name; NutritionItem.quantity := quantity;
     NutritionItem.calories := num calories;
     NutritionItem.protein := Some (num protein);
     NutritionItem.carbs := Some (num carbs);
     NutritionItem.fat := Some (num fat) |}.

(** The breakfast of the controller's documented example response. *)
Definition oatmeal := item "Oatmeal" "1 cup" 300 10 54 6.
Definition banana := item "Banana" "1 medium" 105 1 27 0.

Definition breakfast : Meal.t :=
  {| Meal.name := "Breakfast";
     Meal.items := [oatmeal; banana];
     Meal.totalCalories := num 405;
     Meal.macros := {| Macros.protein := num 11; Macros.carbs := num 81;
                       Macros.fat := num 6; Macros.fiber := Some (num 8) |} |}.

Definition lunch : Meal.t :=
  {| Meal.name := "Lunch";
     Meal.items := [item "Chicken salad" "1 bowl" 1495 95 60 55];
     Meal.totalCalories := num 1495;
     Meal.macros := {| Macros.protein := num 95; Macros.carbs := num 60;
                       Macros.fat := num 55; Macros.fiber := None |} |}.

(** A stored plan with the given calorie total. *)
Definition plan (totalCalories : JS.number) : DietPlan.t :=
  {| DietPlan.id := Some "p1";
     DietPlan.userId := "u1";
     DietPlan.name := "Weight Loss Nutrition Plan";
     DietPlan.description := "Two meals";
     DietPlan.goal := "bulk";
     DietPlan.totalCalories := totalCalories;
     DietPlan.targetMacros := DietService.calculateTotalMacros [breakfast; lunch];
     DietPlan.meals := [breakfast; lunch];
     DietPlan.restrictions := ["vegetarian"] |}.

Definition workout : WorkoutPlan.t :=
  {| WorkoutPlan.id := Some "w1";
     WorkoutPlan.userId := "u1";
     WorkoutPlan.name := "Strength";
     WorkoutPlan.description := "Three days";
     WorkoutPlan.difficulty := "intermediate";
     WorkoutPlan.goal := "bulk";
     WorkoutPlan.daysPerWeek := num 3;
     WorkoutPlan.estimatedDuration := num 45;
     WorkoutPlan.exercises := Json.Arr [] |}.

Definition world (totalCalories : JS.number) : World :=
  {| config := None;
     dietDraft := {| DietDraft.name := "Draft"; DietDraft.description := "From the provider";
                     DietDraft.meals := [breakfast; lunch] |};
     workoutDraft := {| WorkoutDraft.name := "Draft";
                        WorkoutDraft.description := "From the provider";
                        WorkoutDraft.exercises := Json.Arr [] |};
     dietPlans := [("p1", plan totalCalories)];
     workoutPlans := [("w1", workout)] |}.

(** The request of the specification's end-to-end example. *)
Definition request : GenerateDietDto.t :=
  {| GenerateDietDto.userId := "u1"; GenerateDietDto.calories := num 2000;
     GenerateDietDto.goal := "cut"; GenerateDietDto.restrictions := None;
     GenerateDietDto.mealsPerDay := None; GenerateDietDto.targetProtein := None;
     GenerateDietDto.preferredFoods := None; GenerateDietDto.avoidFoods := None;
     GenerateDietDto.preferences := None |}.

Definition noDietModifications : PartialDietDto.t :=
  {| PartialDietDto.userId := None; PartialDietDto.calories := None;
     PartialDietDto.goal := None; PartialDietDto.restrictions := None;
     PartialDietDto.mealsPerDay := None; PartialDietDto.targetProtein := None;
     PartialDietDto.preferredFoods := None; PartialDietDto.avoidFoods := None;
     PartialDietDto.preferences := None |}.

Definition noWorkoutModifications : PartialWorkoutDto.t :=
  {| PartialWorkoutDto.userId := None; PartialWorkoutDto.goal := None;
     PartialWorkoutDto.difficulty := None; PartialWorkoutDto.daysPerWeek := None;
     PartialWorkoutDto.duration := None; PartialWorkoutDto.equipment := None;
     PartialWorkoutDto.targetMuscles := None; PartialWorkoutDto.preferences := None |}.

Definition withGoal (goal : string) (m : PartialDietDto.t) : PartialDietDto.t :=
  {| PartialDietDto.userId := PartialDietDto.userId m;
     PartialDietDto.calories := PartialDietDto.calories m;
     PartialDietDto.goal := Some goal;
     PartialDietDto.restrictions := PartialDietDto.restrictions m;
     PartialDietDto.mealsPerDay := PartialDietDto.mealsPerDay m;
     PartialDietDto.targetProtein := PartialDietDto.targetProtein m;
     PartialDietDto.preferredFoods := PartialDietDto.preferredFoods m;
     PartialDietDto.avoidFoods := PartialDietDto.avoidFoods m;
     PartialDietDto.preferences := PartialDietDto.preferences m |}.

Definition withCalories (calories : JS.number) (m : PartialDietDto.t)
  : PartialDietDto.t :=
  {| PartialDietDto.userId := PartialDietDto.userId m;
     PartialDietDto.calories := Some calories;
     PartialDietDto.goal := PartialDietDto.goal m;
     PartialDietDto.restrictions := PartialDietDto.restrictions m;
     PartialDietDto.mealsPerDay := PartialDietDto.mealsPerDay m;
     PartialDietDto.targetProtein := PartialDietDto.targetProtein m;
     PartialDietDto.preferredFoods := PartialDietDto.preferredFoods m;
     PartialDietDto.avoidFoods := PartialDietDto.avoidFoods m;
     PartialDietDto.preferences := PartialDietDto.preferences m |}.

Definition withWorkoutGoal (goal : string) (m : PartialWorkoutDto.t)
  : PartialWorkoutDto.t :=
  {| PartialWorkoutDto.userId := PartialWorkoutDto.userId m;
     PartialWorkoutDto.goal := Some goal;
     PartialWorkoutDto.difficulty := PartialWorkoutDto.difficulty m;
     PartialWorkoutDto.daysPerWeek := PartialWorkoutDto.daysPerWeek m;
     PartialWorkoutDto.duration := PartialWorkoutDto.duration m;
     PartialWorkoutDto.equipment := PartialWorkoutDto.equipment m;
     PartialWorkoutDto.targetMuscles := PartialWorkoutDto.targetMuscles m;
     PartialWorkoutDto.preferences := PartialWorkoutDto.preferences m |}.

End Sample.

(** ** Further observations *)

(** The calls of a trace, without the log lines. *)
Definition isCalled (e : Event) : bool :=
  match e with Called _ => true | _ => false end.

Definition calls (t : list Event) : list Event := filter isCalled t.

(** The providers asked during a run, by name. *)
Fixpoint providersAsked (t : list Event) : list string :=
  match t with
  | Called c :: t' =>
      match c with
      | GeminiGenerateDietPlan _ | GeminiGenerateWorkoutPlan _ =>
          "gemini" :: providersAsked t'
      | OpenAiGenerateDietPlan _ | OpenAiGenerateWorkoutPlan _ =>
          "openai" :: providersAsked t'
      | _ => providersAsked t'
      end
  | _ :: t' => providersAsked t'
  | [] => []
  end.

(** The plans handed to [saveWorkoutPlan] during a run, in order. *)
Fixpoint savedWorkoutPlans (t : list Event) : list WorkoutPlan.t :=
  match t with
  | Called c :: t' =>
      match c with
      | SaveWorkoutPlan plan => plan :: savedWorkoutPlans t'
      | _ => savedWorkoutPlans t'
      end
  | _ :: t' => savedWorkoutPlans t'
  | [] => []
  end.

(** The decimal numeral of an integer, as code units. *)
Definition numeral (n : Z) : JS.code_units :=
  JS.units (NilZero.string_of_int (Z.to_int n)).

(** A whole Number between [lo] and [hi]. *)
Definition Whole (lo hi : Z) (x : JS.number) : Prop :=
  exists n : Z, lo <= n <= hi /\ x = JS.of_Z n.

(** An optional quantity that is absent or a whole Number between [lo]
    and [hi]. *)
Definition WholeIfPresent (lo hi : Z) (x : option JS.number) : Prop :=
  match x with
  | Some v => Whole lo hi v
  | None => True
  end.

(** An item whose calories are whole and at most [hi] and whose optional
    quantities, when present, are whole, at least 1 and at most [hi]. *)
Definition WholeItem (hi : Z) (i : NutritionItem.t) : Prop :=
  Whole 0 hi (NutritionItem.calories i) /\
  WholeIfPresent 1 hi (NutritionItem.protein i) /\
  WholeIfPresent 1 hi (NutritionItem.carbs i) /\
  WholeIfPresent 1 hi (NutritionItem.fat i).

Definition WholeMeal (hi : Z) (m : Meal.t) : Prop :=
  Whole 0 hi (Meal.totalCalories m) /\
  Whole 0 hi (Macros.protein (Meal.macros m)) /\
  Whole 0 hi (Macros.carbs (Meal.macros m)) /\
  Whole 0 hi (Macros.fat (Meal.macros m)) /\
  WholeIfPresent 1 hi (Macros.fiber (Meal.macros m)) /\
  Forall (WholeItem hi) (Meal.items m).

(** The largest quantity of the table of whole Numbers. *)
Definition wholeBound : Z := 10000.

(** The integers from [lo] to [hi]. *)
Definition rangeZ (lo hi : Z) : list Z :=
  map (fun k => lo + Z.of_nat k) (seq 0 (Z.to_nat (hi - lo + 1))).

(** A meal whose falsy fiber (0 or NaN) is made undefined. *)
Definition withoutFalsyFiber (m : Meal.t) : Meal.t :=
  {| Meal.name := Meal.name m;
     Meal.items := Meal.items m;
     Meal.totalCalories := Meal.totalCalories m;
     Meal.macros :=
       {| Macros.protein := Macros.protein (Meal.macros m);
          Macros.carbs := Macros.carbs (Meal.macros m);
          Macros.fat := Macros.fat (Meal.macros m);
          Macros.fiber :=
            if JS.truthy_opt (Macros.fiber (Meal.macros m))
            then Macros.fiber (Meal.macros m)
            else None |} |}.

(** A stored plan of one meal. *)
Definition planOf (meal : Meal.t) (totalCalories : JS.number) : DietPlan.t :=
  {| DietPlan.id := Some "p3";
     DietPlan.userId := "u1";
     DietPlan.name := "One meal";
     DietPlan.description := "";
     DietPlan.goal := "bulk";
     DietPlan.totalCalories := totalCalories;
     DietPlan.targetMacros := DietService.calculateTotalMacros [meal];
     DietPlan.meals := [meal];
     DietPlan.restrictions := [] |}.

(** Two Numbers with the same representation. *)
Definition sameNumber (x y : JS.number) : bool :=
  match x, y with
  | S754_zero a, S754_zero b => Bool.eqb a b
  | S754_infinity a, S754_infinity b => Bool.eqb a b
  | S754_nan, S754_nan => true
  | S754_finite a m e, S754_finite b m' e' =>
      Bool.eqb a b && Pos.eqb m m' && Z.eqb e e'
  | _, _ => false
  end.

(** A request as it can be read back from the plan generated for it. *)
Definition readBack (dto : GenerateDietDto.t) : GenerateDietDto.t :=
  {| GenerateDietDto.userId := GenerateDietDto.userId dto;
     GenerateDietDto.calories := GenerateDietDto.calories dto;
     GenerateDietDto.goal := GenerateDietDto.goal dto;
     GenerateDietDto.restrictions :=
       Some (JS.or_arr (GenerateDietDto.restrictions dto) []);
     GenerateDietDto.mealsPerDay := None;
     GenerateDietDto.targetProtein := None;
     GenerateDietDto.preferredFoods := None;
     GenerateDietDto.avoidFoods := None;
     GenerateDietDto.preferences := None |}.

Definition readBackWorkout (dto : GenerateWorkoutDto.t) : GenerateWorkoutDto.t :=
  {| GenerateWorkoutDto.userId := GenerateWorkoutDto.userId dto;
     GenerateWorkoutDto.goal := GenerateWorkoutDto.goal dto;
     GenerateWorkoutDto.difficulty := GenerateWorkoutDto.difficulty dto;
     GenerateWorkoutDto.daysPerWeek := GenerateWorkoutDto.daysPerWeek dto;
     GenerateWorkoutDto.duration := GenerateWorkoutDto.duration dto;
     GenerateWorkoutDto.equipment := None;
     GenerateWorkoutDto.targetMuscles := None;
     GenerateWorkoutDto.preferences := None |}.

(** A request with another owner. *)
Definition ownedBy (userId : string) (dto : GenerateDietDto.t) : GenerateDietDto.t :=
  {| GenerateDietDto.userId := userId;
     GenerateDietDto.calories := GenerateDietDto.calories dto;
     GenerateDietDto.goal := GenerateDietDto.goal dto;
     GenerateDietDto.restrictions := GenerateDietDto.restrictions dto;
     GenerateDietDto.mealsPerDay := GenerateDietDto.mealsPerDay dto;
     GenerateDietDto.targetProtein := GenerateDietDto.targetProtein dto;
     GenerateDietDto.preferredFoods := GenerateDietDto.preferredFoods dto;
     GenerateDietDto.avoidFoods := GenerateDietDto.avoidFoods dto;
     GenerateDietDto.preferences := GenerateDietDto.preferences dto |}.

(** The modifications that restate a request. *)
Definition asDietModifications (dto : GenerateDietDto.t) : PartialDietDto.t :=
  {| PartialDietDto.userId := Some (GenerateDietDto.userId dto);
     PartialDietDto.calories := Some (GenerateDietDto.calories dto);
     PartialDietDto.goal := Some (GenerateDietDto.goal dto);
     PartialDietDto.restrictions := GenerateDietDto.restrictions dto;
     PartialDietDto.mealsPerDay := GenerateDietDto.mealsPerDay dto;
     PartialDietDto.targetProtein := GenerateDietDto.targetProtein dto;
     PartialDietDto.preferredFoods := GenerateDietDto.preferredFoods dto;
     PartialDietDto.avoidFoods := GenerateDietDto.avoidFoods dto;
     PartialDietDto.preferences := GenerateDietDto.preferences dto |}.

(** * Properties *)

Example round_half : JS.Math_round (JS.div (JS.of_Z 5) (JS.of_Z 2)) = JS.of_Z 3.
Proof. reflexivity. Qed.

Example round_neg_half : JS.Math_round (JS.div (JS.of_Z (-5)) (JS.of_Z 2)) = JS.of_Z (-2).
Proof. reflexivity. Qed.

Example round_small : JS.Math_round (JS.div (JS.of_Z 1) (JS.of_Z 5)) = JS.zero.
Proof. reflexivity. Qed.

Example round_small_neg : JS.Math_round (JS.div (JS.of_Z (-1)) (JS.of_Z 5)) = S754_zero true.
Proof. reflexivity. Qed.

Example round_minus_half :
  JS.Math_round (JS.div (JS.of_Z (-1)) (JS.of_Z 2)) = S754_zero true.
Proof. reflexivity. Qed.

Example round_plus_half : JS.Math_round (JS.div (JS.of_Z 1) (JS.of_Z 2)) = JS.of_Z 1.
Proof. reflexivity. Qed.

(** The largest Number below one half rounds to zero, although adding one
    half to it would give one. *)
Example round_below_half :
  JS.Math_round (S754_finite false 9007199254740991 (-54)) = JS.zero.
Proof. reflexivity. Qed.

Example round_int : JS.Math_round (JS.of_Z 1500) = JS.of_Z 1500.
Proof. reflexivity. Qed.

Example div_zero : JS.div (JS.of_Z 1500) JS.zero = S754_infinity false.
Proof. reflexivity. Qed.

(** ** Runs of [adjustCalories] *)

Section AdjustCaloriesRun.

Context {W : Type} (h : Handler W) (w : W).
Variables (planId : string) (P : DietPlan.t) (newCalories : JS.number).
Hypothesis found : fst (h _ (GetDietPlan planId) w) = Returned (Some P).

(** When the plan is found, the store is asked to save the adjusted
    plan, once, and nothing else is saved. *)
Lemma adjustCalories_saves :
  savedDietPlans (trace (run h (DietService.adjustCalories planId newCalories) w))
  = [DietService.adjustedPlan P newCalories].
Proof.
  unfold DietService.adjustCalories, try_catch, bindT, await, trace. simpl.
  destruct (h _ (GetDietPlan planId) w) as [o w1] eqn:E1.
  simpl in found. subst o. simpl.
  destruct (h _ (SaveDietPlan (DietService.adjustedPlan P newCalories)) w1)
    as [[saved | e] w2] eqn:E2; reflexivity.
Qed.

(** The calls made are the lookup and the save, in this order. *)
Lemma adjustCalories_calls :
  filter isStoreCall
         (trace (run h (DietService.adjustCalories planId newCalories) w))
  = [Called (GetDietPlan planId);
     Called (SaveDietPlan (DietService.adjustedPlan P newCalories))].
Proof.
  unfold DietService.adjustCalories, try_catch, bindT, await, trace. simpl.
  destruct (h _ (GetDietPlan planId) w) as [o w1] eqn:E1.
  simpl in found. subst o. simpl.
  destruct (h _ (SaveDietPlan (DietService.adjustedPlan P newCalories)) w1)
    as [[saved | e] w2] eqn:E2; reflexivity.
Qed.

(** When the save resolves, its result is the data of a success
    envelope. *)
Lemma adjustCalories_success (saved : DietPlan.t) :
  fst (h _ (SaveDietPlan (DietService.adjustedPlan P newCalories))
         (snd (h _ (GetDietPlan planId) w))) = Returned saved ->
  result (run h (DietService.adjustCalories planId newCalories) w)
  = createSuccessResponse saved (Some "Diet plan calories adjusted successfully").
Proof.
  unfold DietService.adjustCalories, try_catch, bindT, await, result. simpl.
  destruct (h _ (GetDietPlan planId) w) as [o w1] eqn:E1.
  simpl in found. subst o. simpl.
  destruct (h _ (SaveDietPlan (DietService.adjustedPlan P newCalories)) w1)
    as [o2 w2] eqn:E2.
  simpl. intros ->. reflexivity.
Qed.

End AdjustCaloriesRun.

(** ** The scaled meals *)

Lemma adjustedItems_scaled (f : JS.number) (items : list NutritionItem.t) :
  Forall2 (Spec.ScaledItem f) items (map (DietService.adjustedItem f) items).
Proof.
  induction items as [| i items IH]; simpl; constructor; auto.
  repeat split.
Qed.

Lemma adjustedMeals_scaled (f : JS.number) (meals : list Meal.t) :
  Forall2 (Spec.ScaledMeal f) meals (map (DietService.adjustedMeal f) meals).
Proof.
  induction meals as [| m meals IH]; simpl; constructor; auto.
  unfold Spec.ScaledMeal, Spec.Scaled; simpl.
  repeat split. apply adjustedItems_scaled.
Qed.

(** What the conditional scaling does, case by case on the input. *)
Lemma scaleIfTruthy_cases (x : option JS.number) (f : JS.number) :
  match x with
  | None => DietService.scaleIfTruthy x f = None
  | Some v =>
      if JS.truthy v
      then DietService.scaleIfTruthy x f = Some (JS.Math_round (JS.mul v f))
      else DietService.scaleIfTruthy x f = None
  end.
Proof.
  destruct x as [v |]; [| reflexivity].
  unfold DietService.scaleIfTruthy; simpl.
  destruct (JS.truthy v); reflexivity.
Qed.

Lemma scaleIfTruthy_zero (x : option JS.number) (f : JS.number) :
  Spec.isZero x = true -> DietService.scaleIfTruthy x f = None.
Proof.
  destruct x as [[s | s | | s m e] |]; simpl; try discriminate; reflexivity.
Qed.

Lemma adjustedItems_zeros (f : JS.number) (items : list NutritionItem.t) :
  Forall2 Spec.ZerosDroppedItem items (map (DietService.adjustedItem f) items).
Proof.
  induction items as [| i items IH]; simpl; constructor; auto.
  unfold Spec.ZerosDroppedItem; simpl.
  repeat split; apply scaleIfTruthy_zero.
Qed.

Lemma adjustedMeals_zeros (f : JS.number) (meals : list Meal.t) :
  Forall2 Spec.ZerosDroppedMeal meals (map (DietService.adjustedMeal f) meals).
Proof.
  induction meals as [| m meals IH]; simpl; constructor; auto.
  unfold Spec.ZerosDroppedMeal; simpl.
  split; [apply scaleIfTruthy_zero | apply adjustedItems_zeros].
Qed.

(** Away from the falsy values the conditional scaling keeps presence:
    absent stays absent, a present truthy value is scaled. *)
Lemma scaleIfTruthy_present (x : option JS.number) (f : JS.number) :
  Spec.TruthyIfPresent x ->
  Spec.ScaledIfPresent f x (DietService.scaleIfTruthy x f).
Proof.
  destruct x as [v |]; simpl; intros H; [| reflexivity].
  unfold DietService.scaleIfTruthy; simpl. rewrite H. reflexivity.
Qed.

Lemma adjustedItems_optionals (f : JS.number) (items : list NutritionItem.t) :
  Forall Spec.TruthyOptionalsOfItem items ->
  Forall2 (Spec.OptionalsOfItem f) items (map (DietService.adjustedItem f) items).
Proof.
  induction 1 as [| i items (Hp & Hc & Hf) _ IH]; simpl; constructor; auto.
  unfold Spec.OptionalsOfItem; simpl.
  repeat split; apply scaleIfTruthy_present; assumption.
Qed.

Lemma adjustedMeals_optionals (f : JS.number) (meals : list Meal.t) :
  Forall Spec.TruthyOptionalsOfMeal meals ->
  Forall2 (Spec.OptionalsOfMeal f) meals (map (DietService.adjustedMeal f) meals).
Proof.
  induction 1 as [| m meals (Hfiber & Hitems) _ IH]; simpl; constructor; auto.
  unfold Spec.OptionalsOfMeal; simpl. split.
  - apply scaleIfTruthy_present, Hfiber.
  - apply adjustedItems_optionals, Hitems.
Qed.

(** ** Numbers of the accepted range *)

Lemma of_Z_range_table :
  forallb (fun k => JS.isPositiveFinite (JS.of_Z (Z.of_nat k))) (seq 1000 4001) = true.
Proof. vm_compute. reflexivity. Qed.

Lemma of_Z_range (T : Z) :
  1000 <= T <= 5000 -> JS.isPositiveFinite (JS.of_Z T) = true.
Proof.
  intros HT.
  pose proof of_Z_range_table as Htab.
  rewrite forallb_forall in Htab.
  specialize (Htab (Z.to_nat T)).
  rewrite Z2Nat.id in Htab by lia.
  apply Htab. apply in_seq. lia.
Qed.

(** A target of the accepted range divided by zero is an infinity. *)
Lemma factor_of_zero_total (T : Z) (s : bool) :
  1000 <= T <= 5000 -> JS.div (JS.of_Z T) (S754_zero s) = S754_infinity s.
Proof.
  intros HT. apply of_Z_range in HT.
  destruct (JS.of_Z T) as [s' | s' | | [] m e]; try discriminate.
  reflexivity.
Qed.

Lemma scale_by_infinity (x : JS.number) (s : bool) :
  JS.isFinite (DietService.scale x (S754_infinity s)) = false.
Proof. destruct x; reflexivity. Qed.

Lemma adjustedMeals_nothing_finite (s : bool) (meals : list Meal.t) :
  Forall Spec.NothingFinite (map (DietService.adjustedMeal (S754_infinity s)) meals).
Proof.
  induction meals as [| m meals IH]; simpl; constructor; auto.
  unfold Spec.NothingFinite; simpl.
  repeat split; try apply scale_by_infinity.
  induction (Meal.items m) as [| i items IHi]; simpl; constructor; auto.
  apply scale_by_infinity.
Qed.

Lemma toInteger_range_table :
  forallb (fun k => match JS.toInteger (JS.of_Z (Z.of_nat k)) with
                    | Some z => z =? Z.of_nat k
                    | None => false
                    end) (seq 1000 4001) = true.
Proof. vm_compute. reflexivity. Qed.

(** The Number of an integer of the accepted range is that integer. *)
Lemma toInteger_of_Z (T : Z) :
  1000 <= T <= 5000 -> JS.toInteger (JS.of_Z T) = Some T.
Proof.
  intros HT.
  pose proof toInteger_range_table as Htab.
  rewrite forallb_forall in Htab.
  specialize (Htab (Z.to_nat T)).
  rewrite Z2Nat.id in Htab by lia.
  destruct (JS.toInteger (JS.of_Z T)) as [z |].
  - f_equal. apply Z.eqb_eq. apply Htab. apply in_seq. lia.
  - discriminate Htab. apply in_seq. lia.
Qed.

(** ** The aggregate *)

Lemma calculateTotalMacros_sums (meals : list Meal.t) :
  let total := DietService.calculateTotalMacros meals in
  TotalMacros.protein total
  = fold_left JS.add (map (fun m => Macros.protein (Meal.macros m)) meals) JS.zero /\
  TotalMacros.carbs total
  = fold_left JS.add (map (fun m => Macros.carbs (Meal.macros m)) meals) JS.zero /\
  TotalMacros.fat total
  = fold_left JS.add (map (fun m => Macros.fat (Meal.macros m)) meals) JS.zero /\
  TotalMacros.fiber total
  = fold_left JS.add
      (map (fun m => JS.or_num (Macros.fiber (Meal.macros m)) JS.zero) meals) JS.zero.
Proof.
  unfold DietService.calculateTotalMacros.
  match goal with
  | |- context [fold_left ?step meals ?start] =>
      assert (G : forall acc,
                 TotalMacros.protein (fold_left step meals acc)
                 = fold_left JS.add (map (fun m => Macros.protein (Meal.macros m)) meals)
                     (TotalMacros.protein acc) /\
                 TotalMacros.carbs (fold_left step meals acc)
                 = fold_left JS.add (map (fun m => Macros.carbs (Meal.macros m)) meals)
                     (TotalMacros.carbs acc) /\
                 TotalMacros.fat (fold_left step meals acc)
                 = fold_left JS.add (map (fun m => Macros.fat (Meal.macros m)) meals)
                     (TotalMacros.fat acc) /\
                 TotalMacros.fiber (fold_left step meals acc)
                 = fold_left JS.add
                     (map (fun m => JS.or_num (Macros.fiber (Meal.macros m)) JS.zero) meals)
                     (TotalMacros.fiber acc));
      [| exact (G start)]
  end.
  induction meals as [| m meals IH]; intros acc; simpl.
  - repeat split.
  - apply IH.
Qed.

(** ** The rescaled plan *)

Lemma adjustedPlan_rescaled_required (P : DietPlan.t) (T : Z) :
  1000 <= T <= 5000 ->
  Spec.RescaledRequired P T (DietService.adjustedPlan P (JS.of_Z T)).
Proof.
  intros HT. unfold Spec.RescaledRequired.
  split; [reflexivity |]. split; [apply toInteger_of_Z, HT |].
  split; [apply adjustedMeals_scaled |].
  split; [apply calculateTotalMacros_sums |].
  repeat split.
Qed.

(** Away from the falsy optional quantities the adjustment is the
    rescaling in full: for a found plan with a positive total whose
    optional quantities are absent or truthy, and a target between 1000
    and 5000, the one plan handed to the store is the rescaled plan. *)
Lemma adjustCalories_rescales_truthy_optionals :
  forall (W : Type) (h : Handler W) (w : W) (planId : string)
         (P : DietPlan.t) (T : Z),
    JS.ltb JS.zero (DietPlan.totalCalories P) = true ->
    1000 <= T <= 5000 ->
    Forall Spec.TruthyOptionalsOfMeal (DietPlan.meals P) ->
    fst (h _ (GetDietPlan planId) w) = Returned (Some P) ->
    exists P' : DietPlan.t,
      savedDietPlans
        (trace (run h (DietService.adjustCalories planId (JS.of_Z T)) w)) = [P'] /\
      Spec.Rescaled P T P'.
Proof.
  intros W h w planId P T _ HT Htruthy Hfound.
  exists (DietService.adjustedPlan P (JS.of_Z T)). split.
  - apply adjustCalories_saves, Hfound.
  - split; [apply adjustedPlan_rescaled_required, HT |].
    apply adjustedMeals_optionals, Htruthy.
Qed.

(** C1 fails on the code at the documented breakfast: the stored plan has
    2000 kcal and the target is 3000.  The one plan handed to the store
    has the new total, the scaled required quantities, the totals summed
    from its meals and every other field unchanged, but its meals are not
    the scaled meals: the banana's fat, present with the value 0, is
    undefined in it, so the plan is not the rescaled plan. *)
Theorem adjustCalories_rescale_loses_zero :
  let P := Sample.plan (Sample.num 2000) in
  let r := run Sample.handler (DietService.adjustCalories "p1" (JS.of_Z 3000))
               (Sample.world (Sample.num 2000)) in
  JS.ltb JS.zero (DietPlan.totalCalories P) = true /\
  exists P' : DietPlan.t,
    savedDietPlans (trace r) = [P'] /\
    Spec.RescaledRequired P 3000 P' /\
    map NutritionItem.fat (flat_map Meal.items (DietPlan.meals P))
    = [Some (JS.of_Z 6); Some JS.zero; Some (JS.of_Z 55)] /\
    map NutritionItem.fat (flat_map Meal.items (DietPlan.meals P'))
    = [Some (JS.of_Z 9); None; Some (JS.of_Z 83)] /\
    ~ Spec.Rescaled P 3000 P'.
Proof.
  split; [reflexivity |].
  exists (DietService.adjustedPlan (Sample.plan (Sample.num 2000)) (JS.of_Z 3000)).
  split; [reflexivity |].
  split; [apply adjustedPlan_rescaled_required; lia |].
  split; [reflexivity |].
  split; [vm_compute; reflexivity |].
  intros [_ H].
  cbn [DietService.adjustedPlan DietPlan.meals DietPlan.totalCalories Sample.plan] in H.
  unfold DietService.adjustedMeals in H.
  cbn [DietPlan.meals DietPlan.totalCalories Sample.plan map] in H.
  inversion H as [| m m' ms ms' Hm _]; subst.
  destruct Hm as [_ Hitems].
  inversion Hitems as [| i i' l l' _ Hrest]; subst.
  inversion Hrest as [| j j' k k' Hbanana _]; subst.
  destruct Hbanana as (_ & _ & Hfat).
  vm_compute in Hfat. discriminate Hfat.
Qed.

(** C5: for a stored plan with a positive calorie total and a target
    between 1000 and 5000, the [targetMacros] of the plan that
    [adjustCalories] saves is [calculateTotalMacros] of that plan's own,
    already scaled meals: the sums of their protein, carbs, fat and fiber,
    a meal without fiber adding zero. *)
Theorem adjustCalories_aggregate_of_scaled_meals :
  forall (W : Type) (h : Handler W) (w : W) (planId : string)
         (P : DietPlan.t) (T : Z),
    JS.ltb JS.zero (DietPlan.totalCalories P) = true ->
    1000 <= T <= 5000 ->
    fst (h _ (GetDietPlan planId) w) = Returned (Some P) ->
    exists P' : DietPlan.t,
      savedDietPlans
        (trace (run h (DietService.adjustCalories planId (JS.of_Z T)) w)) = [P'] /\
      DietPlan.meals P' = DietService.adjustedMeals P (JS.of_Z T) /\
      DietService.calculateTotalMacros (DietPlan.meals P') = DietPlan.targetMacros P' /\
      Spec.SumsOfOwnMeals P'.
Proof.
  intros W h w planId P T _ _ Hfound.
  exists (DietService.adjustedPlan P (JS.of_Z T)). split; [| split; [| split]].
  - apply adjustCalories_saves, Hfound.
  - reflexivity.
  - reflexivity.
  - unfold Spec.SumsOfOwnMeals; simpl.
    apply calculateTotalMacros_sums.
Qed.

Lemma adjustCalories_aggregate_of_scaled_meals_witness :
  exists P' : DietPlan.t,
    savedDietPlans
      (trace (run Sample.handler (DietService.adjustCalories "p1" (JS.of_Z 3000))
                  (Sample.world (Sample.num 2000)))) = [P'] /\
    DietPlan.meals P'
    = DietService.adjustedMeals (Sample.plan (Sample.num 2000)) (JS.of_Z 3000) /\
    DietService.calculateTotalMacros (DietPlan.meals P') = DietPlan.targetMacros P' /\
    Spec.SumsOfOwnMeals P'.
Proof.
  apply (adjustCalories_aggregate_of_scaled_meals Sample.World Sample.handler
           (Sample.world (Sample.num 2000)) "p1" (Sample.plan (Sample.num 2000)) 3000).
  - reflexivity.
  - lia.
  - reflexivity.
Defined.

(** The recomputed aggregate is not the original aggregate scaled: two
    meals of 1 g of protein each, rescaled from 2000 to 3000, carry 2 g
    each and 4 g together, while the original 2 g scaled would be 3 g. *)
Example aggregate_is_not_scaled_aggregate :
  let meal := {| Meal.name := "Snack"; Meal.items := [];
                 Meal.totalCalories := JS.of_Z 1000;
                 Meal.macros := {| Macros.protein := JS.of_Z 1; Macros.carbs := JS.of_Z 0;
                                   Macros.fat := JS.of_Z 0; Macros.fiber := None |} |} in
  let P := {| DietPlan.id := Some "p2"; DietPlan.userId := "u1"; DietPlan.name := "Snacks";
              DietPlan.description := ""; DietPlan.goal := "bulk";
              DietPlan.totalCalories := JS.of_Z 2000;
              DietPlan.targetMacros := DietService.calculateTotalMacros [meal; meal];
              DietPlan.meals := [meal; meal]; DietPlan.restrictions := [] |} in
  let P' := DietService.adjustedPlan P (JS.of_Z 3000) in
  TotalMacros.protein (DietPlan.targetMacros P') = JS.of_Z 4 /\
  TotalMacros.protein
    (Spec.scaledAggregate (DietService.scalingFactor (JS.of_Z 3000) P) (DietPlan.meals P))
  = JS.of_Z 3.
Proof. vm_compute. split; reflexivity. Qed.

(** C10: whatever the new target, in the plan that [adjustCalories] saves
    every optional macro that was exactly zero in the stored plan (an
    item's protein, carbs or fat, a meal's fiber) is absent. *)
Theorem adjustCalories_drops_zero_macros :
  forall (W : Type) (h : Handler W) (w : W) (planId : string)
         (P : DietPlan.t) (newCalories : JS.number),
    fst (h _ (GetDietPlan planId) w) = Returned (Some P) ->
    exists P' : DietPlan.t,
      savedDietPlans
        (trace (run h (DietService.adjustCalories planId newCalories) w)) = [P'] /\
      Forall2 Spec.ZerosDroppedMeal (DietPlan.meals P) (DietPlan.meals P').
Proof.
  intros W h w planId P newCalories Hfound.
  exists (DietService.adjustedPlan P newCalories). split.
  - apply adjustCalories_saves, Hfound.
  - apply adjustedMeals_zeros.
Qed.

Lemma adjustCalories_drops_zero_macros_witness :
  exists P' : DietPlan.t,
    savedDietPlans
      (trace (run Sample.handler (DietService.adjustCalories "p1" (JS.of_Z 3000))
                  (Sample.world (Sample.num 2000)))) = [P'] /\
    Forall2 Spec.ZerosDroppedMeal (DietPlan.meals (Sample.plan (Sample.num 2000)))
            (DietPlan.meals P').
Proof.
  apply (adjustCalories_drops_zero_macros Sample.World Sample.handler
           (Sample.world (Sample.num 2000)) "p1" (Sample.plan (Sample.num 2000))
           (JS.of_Z 3000)).
  reflexivity.
Defined.

(** The banana of the documented example has [fat: 0]; after the
    adjustment its fat is undefined. *)
Example banana_fat_dropped :
  NutritionItem.fat Sample.banana = Some JS.zero /\
  NutritionItem.fat
    (DietService.adjustedItem
       (DietService.scalingFactor (JS.of_Z 3000) (Sample.plan (Sample.num 2000)))
       Sample.banana) = None.
Proof. split; reflexivity. Qed.

(** ** A stored total of zero *)

(** C2, as the code has it: for a stored plan whose calorie total is zero
    and a target between 1000 and 5000 there is no guard; the factor is an
    infinity, the plan handed to the store carries the target as its total
    and no finite required quantity in any meal (each is an infinity or
    NaN), and when the store resolves the response is a success. *)
Theorem adjustCalories_zero_total_unguarded :
  forall (W : Type) (h : Handler W) (w : W) (planId : string)
         (P : DietPlan.t) (T : Z) (s : bool),
    DietPlan.totalCalories P = S754_zero s ->
    1000 <= T <= 5000 ->
    fst (h _ (GetDietPlan planId) w) = Returned (Some P) ->
    DietService.scalingFactor (JS.of_Z T) P = S754_infinity s /\
    exists P' : DietPlan.t,
      savedDietPlans
        (trace (run h (DietService.adjustCalories planId (JS.of_Z T)) w)) = [P'] /\
      DietPlan.totalCalories P' = JS.of_Z T /\
      Forall Spec.NothingFinite (DietPlan.meals P') /\
      forall saved : DietPlan.t,
        fst (h _ (SaveDietPlan P') (snd (h _ (GetDietPlan planId) w))) = Returned saved ->
        result (run h (DietService.adjustCalories planId (JS.of_Z T)) w)
        = createSuccessResponse saved (Some "Diet plan calories adjusted successfully").
Proof.
  intros W h w planId P T s Hzero HT Hfound.
  assert (Hf : DietService.scalingFactor (JS.of_Z T) P = S754_infinity s).
  { unfold DietService.scalingFactor. rewrite Hzero.
    apply factor_of_zero_total, HT. }
  split; [exact Hf |].
  exists (DietService.adjustedPlan P (JS.of_Z T)). split; [| split; [| split]].
  - apply adjustCalories_saves, Hfound.
  - reflexivity.
  - simpl. unfold DietService.adjustedMeals. rewrite Hf.
    apply adjustedMeals_nothing_finite.
  - intros saved Hsaved.
    exact (adjustCalories_success h w planId P (JS.of_Z T) Hfound saved Hsaved).
Qed.

Lemma adjustCalories_zero_total_unguarded_witness :
  DietService.scalingFactor (JS.of_Z 2000) (Sample.plan JS.zero) = S754_infinity false /\
  exists P' : DietPlan.t,
    savedDietPlans
      (trace (run Sample.handler (DietService.adjustCalories "p1" (JS.of_Z 2000))
                  (Sample.world JS.zero))) = [P'] /\
    DietPlan.totalCalories P' = JS.of_Z 2000 /\
    Forall Spec.NothingFinite (DietPlan.meals P') /\
    forall saved : DietPlan.t,
      fst (Sample.handler _ (SaveDietPlan P')
             (snd (Sample.handler _ (GetDietPlan "p1") (Sample.world JS.zero))))
      = Returned saved ->
      result (run Sample.handler (DietService.adjustCalories "p1" (JS.of_Z 2000))
                  (Sample.world JS.zero))
      = createSuccessResponse saved (Some "Diet plan calories adjusted successfully").
Proof.
  apply (adjustCalories_zero_total_unguarded Sample.World Sample.handler
           (Sample.world JS.zero) "p1" (Sample.plan JS.zero) 2000 false).
  - reflexivity.
  - lia.
  - reflexivity.
Defined.

(** C2 fails on the code: the stored plan has a calorie total of zero, yet
    the adjustment to 2000 succeeds, with no error, and saves meals whose
    calories are +Infinity. *)
Lemma adjustCalories_zero_total_counterexample :
  let r := run Sample.handler (DietService.adjustCalories "p1" (JS.of_Z 2000))
               (Sample.world JS.zero) in
  DietPlan.totalCalories (Sample.plan JS.zero) = JS.zero /\
  ApiResponse.success (result r) = true /\
  ApiResponse.error (result r) = None /\
  map Meal.totalCalories (flat_map DietPlan.meals (savedDietPlans (trace r)))
  = [S754_infinity false; S754_infinity false] /\
  option_map (fun plan => map Meal.totalCalories (DietPlan.meals plan))
             (ApiResponse.data (result r))
  = Some [S754_infinity false; S754_infinity false].
Proof. vm_compute. repeat split. Qed.

(** ** Optional quantities that are zero *)

(** C3 fails on the code at the documented breakfast: rescaling the plan
    from 2000 to 3000 does not keep the presence of the optional
    quantities, because the banana's fat, present with the value 0,
    comes out undefined. *)
Theorem adjustCalories_loses_present_zero :
  let P := Sample.plan (Sample.num 2000) in
  let factor := DietService.scalingFactor (JS.of_Z 3000) P in
  NutritionItem.fat Sample.banana = Some JS.zero /\
  map NutritionItem.fat
      (flat_map Meal.items (DietService.adjustedMeals P (JS.of_Z 3000)))
  = [Some (JS.of_Z 9); None; Some (JS.of_Z 83)] /\
  ~ Forall2 (Spec.OptionalsOfMeal factor)
      (DietPlan.meals P) (DietService.adjustedMeals P (JS.of_Z 3000)).
Proof.
  split; [reflexivity |]. split; [vm_compute; reflexivity |].
  intros H. inversion H as [| m m' ms ms' Hm _]; subst.
  destruct Hm as [_ Hitems].
  inversion Hitems as [| i i' l l' _ Hrest]; subst.
  inversion Hrest as [| j j' k k' Hbanana _]; subst.
  destruct Hbanana as (_ & _ & Hfat).
  vm_compute in Hfat. discriminate Hfat.
Qed.

(** C4 fails on the code: the sample plan of 2500 kcal is adjusted to
    1000 twice in a row.  The first adjustment leaves the banana with
    [protein: 0]; the second one, whose factor is 1, turns it into
    undefined, so the second result is not the first. *)
Theorem adjustCalories_twice_differs :
  let target := JS.of_Z 1000 in
  let r1 := run Sample.handler (DietService.adjustCalories "p1" target)
                (Sample.world (Sample.num 2500)) in
  let r2 := run Sample.handler (DietService.adjustCalories "p1" target) (final r1) in
  let proteins (r : ApiResponse.t DietPlan.t) :=
    option_map (fun plan => map NutritionItem.protein
                              (flat_map Meal.items (DietPlan.meals plan)))
               (ApiResponse.data r) in
  (forall once : DietPlan.t,
      ApiResponse.data (result r1) = Some once ->
      DietService.scalingFactor target once = JS.of_Z 1) /\
  proteins (result r1) = Some [Some (JS.of_Z 4); Some JS.zero; Some (JS.of_Z 38)] /\
  proteins (result r2) = Some [Some (JS.of_Z 4); None; Some (JS.of_Z 38)] /\
  ApiResponse.data (result r2) <> ApiResponse.data (result r1).
Proof.
  split; [| split; [| split]].
  - intros once H. vm_compute in H. injection H as <-. vm_compute. reflexivity.
  - vm_compute. reflexivity.
  - vm_compute. reflexivity.
  - intros H.
    apply (f_equal (option_map (fun plan =>
             map NutritionItem.protein (flat_map Meal.items (DietPlan.meals plan))))) in H.
    vm_compute in H. discriminate H.
Qed.

(** ** The [calories] path parameter *)

(** The digits are read with an accumulator; what is read is the number
    denoted by the longest prefix of digits. *)
Lemma readDigits_leadingDigits (s : JS.code_units) :
  forall (acc : Z) (seen : bool),
    JS.readDigits s acc seen
    = match Spec.leadingDigits s with
      | [] => if seen then Some acc else None
      | digits => Some (Spec.decimal acc digits)
      end.
Proof.
  induction s as [| c s IH]; intros acc seen; simpl.
  - reflexivity.
  - destruct (JS.isDigit c); [| reflexivity].
    rewrite IH. simpl.
    destruct (Spec.leadingDigits s); reflexivity.
Qed.

(** [parseInt] reads the leading integer of the parameter, and NaN when
    there is none. *)
Lemma parseInt10_leadingInteger (s : JS.code_units) :
  JS.parseInt10 s
  = if Spec.hasLeadingDigits s then Some (Spec.leadingInteger s) else None.
Proof.
  unfold JS.parseInt10, Spec.hasLeadingDigits, Spec.leadingInteger.
  destruct (JS.readSign (JS.trimStart s)) as [negative rest]; simpl.
  rewrite readDigits_leadingDigits.
  destruct (Spec.leadingDigits rest); reflexivity.
Qed.

(** A parameter whose leading integer lies in the range reaches the
    service with that integer, whatever follows the digits. *)
Lemma adjustCalories_accepts (id : string) (calories : JS.code_units) :
  Spec.hasLeadingDigits calories = true ->
  1000 <= Spec.leadingInteger calories <= 5000 ->
  DietController.adjustCalories id calories
  = DietService.adjustCalories id (JS.of_Z (Spec.leadingInteger calories)).
Proof.
  intros Hd Hr. unfold DietController.adjustCalories.
  rewrite parseInt10_leadingInteger, Hd.
  destruct (Z.ltb_spec (Spec.leadingInteger calories) 1000); [lia |].
  destruct (Z.gtb_spec (Spec.leadingInteger calories) 5000); [lia |].
  reflexivity.
Qed.

(** C6, as the code has it: when the parameter, after leading white space
    and an optional sign, does not start with a decimal digit, or starts
    with an integer below 1000 or above 5000, the controller answers with
    the failure envelope carrying "Invalid calories value. Must be between
    1000 and 5000." without entering the service: the program is that
    answer alone, and a run makes no call, logs nothing and leaves the
    collaborators as they were. *)
Theorem adjustCalories_rejects :
  forall (id : string) (calories : JS.code_units),
    Spec.hasLeadingDigits calories = false \/
    Spec.leadingInteger calories < 1000 \/
    5000 < Spec.leadingInteger calories ->
    DietController.adjustCalories id calories = Ret DietController.invalidCalories /\
    ApiResponse.success DietController.invalidCalories = false /\
    ApiResponse.error DietController.invalidCalories
    = Some "Invalid calories value. Must be between 1000 and 5000." /\
    forall (W : Type) (h : Handler W) (w : W),
      run h (DietController.adjustCalories id calories) w
      = (DietController.invalidCalories, w, []).
Proof.
  intros id calories H.
  assert (E : DietController.adjustCalories id calories
              = Ret DietController.invalidCalories).
  { unfold DietController.adjustCalories.
    rewrite parseInt10_leadingInteger.
    destruct (Spec.hasLeadingDigits calories); [| reflexivity].
    destruct H as [H | H]; [discriminate H |].
    destruct (Z.ltb_spec (Spec.leadingInteger calories) 1000); [reflexivity |].
    destruct (Z.gtb_spec (Spec.leadingInteger calories) 5000); [reflexivity |].
    lia. }
  split; [exact E |]. split; [reflexivity |]. split; [reflexivity |].
  intros W h w. rewrite E. reflexivity.
Qed.

Lemma adjustCalories_rejects_witness :
  DietController.adjustCalories "p1" (JS.units "500")
  = Ret DietController.invalidCalories /\
  ApiResponse.success DietController.invalidCalories = false /\
  ApiResponse.error DietController.invalidCalories
  = Some "Invalid calories value. Must be between 1000 and 5000." /\
  forall (W : Type) (h : Handler W) (w : W),
    run h (DietController.adjustCalories "p1" (JS.units "500")) w
    = (DietController.invalidCalories, w, []).
Proof.
  apply (adjustCalories_rejects "p1" (JS.units "500")).
  right. left. vm_compute. reflexivity.
Defined.

Example rejects_words :
  DietController.adjustCalories "p1" (JS.units "plenty")
  = Ret DietController.invalidCalories.
Proof. reflexivity. Qed.

Example rejects_above :
  DietController.adjustCalories "p1" (JS.units " +5001")
  = Ret DietController.invalidCalories.
Proof. reflexivity. Qed.

(** C6 fails on the code: ["1500abc"] is not a number, yet the
    controller reads 1500 from it and enters the service, which reads the
    store, saves the adjusted plan and answers with a success. *)
Lemma adjustCalories_non_numeric_counterexample :
  let calories := JS.units "1500abc" in
  let r := run Sample.handler (DietController.adjustCalories "p1" calories)
               (Sample.world (Sample.num 2000)) in
  Spec.isIntegerNumeral calories = false /\
  DietController.adjustCalories "p1" calories
  = DietService.adjustCalories "p1" (JS.of_Z 1500) /\
  ApiResponse.success (result r) = true /\
  map isStoreCall (trace r) = [true; true] /\
  map DietPlan.totalCalories (savedDietPlans (trace r)) = [JS.of_Z 1500].
Proof.
  split; [reflexivity |]. split; [reflexivity |].
  vm_compute. repeat split.
Qed.

(** ** The regeneration merge *)

(** C7, as the code has it: the merged request takes [userId] from the
    stored plan; [calories], [goal] (and for workouts [goal],
    [difficulty], [daysPerWeek], [duration]) from the modifications when
    the field is present and truthy, and otherwise from the stored
    [totalCalories], [goal] ([goal], [difficulty], [daysPerWeek],
    [estimatedDuration]); [restrictions] from the modifications when
    present, otherwise from the stored plan; the remaining fields from the
    modifications alone.  Merging [{goal: "cut"}] into a stored diet plan
    of user u1 with goal bulk and 2500 kcal gives user u1, goal cut and
    2500 kcal; into a stored workout of user u1 with goal bulk and 45
    minutes, user u1, goal cut and 45 minutes. *)
Theorem updatedDto_merges :
  (forall (existing : DietPlan.t) (modifications : PartialDietDto.t),
      let merged := DietService.updatedDto existing modifications in
      GenerateDietDto.userId merged = DietPlan.userId existing /\
      Spec.MergedIfTruthy JS.truthy (PartialDietDto.calories modifications)
        (DietPlan.totalCalories existing) (GenerateDietDto.calories merged) /\
      Spec.MergedIfTruthy JS.truthy_str (PartialDietDto.goal modifications)
        (DietPlan.goal existing) (GenerateDietDto.goal merged) /\
      GenerateDietDto.restrictions merged
      = Some (Spec.ifPresent (PartialDietDto.restrictions modifications)
                (DietPlan.restrictions existing)) /\
      GenerateDietDto.mealsPerDay merged = PartialDietDto.mealsPerDay modifications /\
      GenerateDietDto.targetProtein merged = PartialDietDto.targetProtein modifications /\
      GenerateDietDto.preferredFoods merged = PartialDietDto.preferredFoods modifications /\
      GenerateDietDto.avoidFoods merged = PartialDietDto.avoidFoods modifications /\
      GenerateDietDto.preferences merged = PartialDietDto.preferences modifications) /\
  (forall (existing : WorkoutPlan.t) (modifications : PartialWorkoutDto.t),
      let merged := WorkoutService.updatedDto existing modifications in
      GenerateWorkoutDto.userId merged = WorkoutPlan.userId existing /\
      Spec.MergedIfTruthy JS.truthy_str (PartialWorkoutDto.goal modifications)
        (WorkoutPlan.goal existing) (GenerateWorkoutDto.goal merged) /\
      Spec.MergedIfTruthy JS.truthy_str (PartialWorkoutDto.difficulty modifications)
        (WorkoutPlan.difficulty existing) (GenerateWorkoutDto.difficulty merged) /\
      Spec.MergedIfTruthy JS.truthy (PartialWorkoutDto.daysPerWeek modifications)
        (WorkoutPlan.daysPerWeek existing) (GenerateWorkoutDto.daysPerWeek merged) /\
      Spec.MergedIfTruthy JS.truthy (PartialWorkoutDto.duration modifications)
        (WorkoutPlan.estimatedDuration existing) (GenerateWorkoutDto.duration merged) /\
      GenerateWorkoutDto.equipment merged = PartialWorkoutDto.equipment modifications /\
      GenerateWorkoutDto.targetMuscles merged
      = PartialWorkoutDto.targetMuscles modifications /\
      GenerateWorkoutDto.preferences merged
      = PartialWorkoutDto.preferences modifications) /\
  (let merged := DietService.updatedDto (Sample.plan (Sample.num 2500))
                   (Sample.withGoal "cut" Sample.noDietModifications) in
   GenerateDietDto.userId merged = "u1" /\
   GenerateDietDto.goal merged = "cut" /\
   GenerateDietDto.calories merged = JS.of_Z 2500) /\
  (let merged := WorkoutService.updatedDto Sample.workout
                   (Sample.withWorkoutGoal "cut" Sample.noWorkoutModifications) in
   GenerateWorkoutDto.userId merged = "u1" /\
   GenerateWorkoutDto.goal merged = "cut" /\
   GenerateWorkoutDto.duration merged = JS.of_Z 45).
Proof.
  split; [| split; [| split]].
  - intros existing modifications. simpl.
    unfold Spec.MergedIfTruthy, JS.or_num, JS.or_str.
    repeat split.
    + destruct (PartialDietDto.calories modifications) as [v |]; [| reflexivity].
      destruct (JS.truthy v); reflexivity.
    + destruct (PartialDietDto.goal modifications) as [v |]; [| reflexivity].
      destruct (JS.truthy_str v); reflexivity.
  - intros existing modifications. simpl.
    unfold Spec.MergedIfTruthy, JS.or_num, JS.or_str.
    repeat split.
    + destruct (PartialWorkoutDto.goal modifications) as [v |]; [| reflexivity].
      destruct (JS.truthy_str v); reflexivity.
    + destruct (PartialWorkoutDto.difficulty modifications) as [v |]; [| reflexivity].
      destruct (JS.truthy_str v); reflexivity.
    + destruct (PartialWorkoutDto.daysPerWeek modifications) as [v |]; [| reflexivity].
      destruct (JS.truthy v); reflexivity.
    + destruct (PartialWorkoutDto.duration modifications) as [v |]; [| reflexivity].
      destruct (JS.truthy v); reflexivity.
  - repeat split.
  - repeat split.
Qed.

(** C7 fails on the code: a modification [{calories: 0}] is present, yet
    the merged request carries the stored 2500 and not the 0 that the
    modification holds. *)
Lemma updatedDto_present_zero_counterexample :
  let existing := Sample.plan (Sample.num 2500) in
  let modifications := Sample.withCalories JS.zero Sample.noDietModifications in
  let merged := DietService.updatedDto existing modifications in
  PartialDietDto.calories modifications = Some JS.zero /\
  GenerateDietDto.calories merged = JS.of_Z 2500 /\
  GenerateDietDto.calories merged
  <> Spec.ifPresent (PartialDietDto.calories modifications)
       (DietPlan.totalCalories existing).
Proof.
  split; [reflexivity |]. split; [reflexivity |].
  vm_compute. discriminate.
Qed.

(** ** Ownership *)

(** C8: the merged request's [userId] is the stored plan's, and a
    [userId] among the modifications changes nothing: modifications that
    differ only there give the same merged request, the same program and
    the same run, for diets and for workouts. *)
Theorem regenerate_keeps_owner :
  (forall (existing : DietPlan.t) (modifications : PartialDietDto.t)
          (u1 u2 : option string),
      GenerateDietDto.userId
        (DietService.updatedDto existing (Spec.withUserId u1 modifications))
      = DietPlan.userId existing /\
      DietService.updatedDto existing (Spec.withUserId u1 modifications)
      = DietService.updatedDto existing (Spec.withUserId u2 modifications)) /\
  (forall (existing : WorkoutPlan.t) (modifications : PartialWorkoutDto.t)
          (u1 u2 : option string),
      GenerateWorkoutDto.userId
        (WorkoutService.updatedDto existing (Spec.withWorkoutUserId u1 modifications))
      = WorkoutPlan.userId existing /\
      WorkoutService.updatedDto existing (Spec.withWorkoutUserId u1 modifications)
      = WorkoutService.updatedDto existing (Spec.withWorkoutUserId u2 modifications)) /\
  (forall (W : Type) (h : Handler W) (w : W) (planId : string)
          (modifications : PartialDietDto.t) (u1 u2 : option string),
      run h (DietService.regenerateDiet planId (Spec.withUserId u1 modifications)) w
      = run h (DietService.regenerateDiet planId (Spec.withUserId u2 modifications)) w) /\
  (forall (W : Type) (h : Handler W) (w : W) (planId : string)
          (modifications : PartialWorkoutDto.t) (u1 u2 : option string),
      run h (WorkoutService.regenerateWorkout planId
               (Spec.withWorkoutUserId u1 modifications)) w
      = run h (WorkoutService.regenerateWorkout planId
                 (Spec.withWorkoutUserId u2 modifications)) w).
Proof.
  split; [| split; [| split]]; intros; try split; reflexivity.
Qed.

(** The request that reaches the provider during a regeneration is the
    merged one. *)
Lemma regenerateDiet_request {W : Type} (h : Handler W) (w : W) (planId : string)
      (existing : DietPlan.t) (modifications : PartialDietDto.t)
      (configured : option string) :
  fst (h _ (GetDietPlan planId) w) = Returned (Some existing) ->
  fst (h _ (ConfigGet "ai.defaultProvider") (snd (h _ (GetDietPlan planId) w)))
  = Returned configured ->
  dietRequests (trace (run h (DietService.regenerateDiet planId modifications) w))
  = [DietService.updatedDto existing modifications].
Proof.
  intros Hfound Hconfig.
  unfold DietService.regenerateDiet, try_catch, bindT, await, awaitProg, trace. simpl.
  destruct (h _ (GetDietPlan planId) w) as [o w1].
  simpl in Hfound, Hconfig. subst o. simpl.
  destruct (h _ (ConfigGet "ai.defaultProvider") w1) as [o w2].
  simpl in Hconfig. subst o. simpl.
  destruct (String.eqb (JS.or_str configured "openai") "gemini"); simpl.
  - destruct (h _ (GeminiGenerateDietPlan (DietService.updatedDto existing modifications)) w2)
      as [[draft | e] w3]; simpl; [| reflexivity].
    destruct (h _ (SaveDietPlan
                     (DietService.dietPlan
                        (DietService.updatedDto existing modifications) draft)) w3)
      as [[saved | e] w4]; reflexivity.
  - destruct (h _ (OpenAiGenerateDietPlan (DietService.updatedDto existing modifications)) w2)
      as [[draft | e] w3]; simpl; [| reflexivity].
    destruct (h _ (SaveDietPlan
                     (DietService.dietPlan
                        (DietService.updatedDto existing modifications) draft)) w3)
      as [[saved | e] w4]; reflexivity.
Qed.

Example regenerate_with_other_owner :
  dietRequests
    (trace (run Sample.handler
              (DietService.regenerateDiet "p1"
                 (Spec.withUserId (Some "intruder")
                    (Sample.withGoal "cut" Sample.noDietModifications)))
              (Sample.world (Sample.num 2500))))
  = [{| GenerateDietDto.userId := "u1"; GenerateDietDto.calories := JS.of_Z 2500;
        GenerateDietDto.goal := "cut";
        GenerateDietDto.restrictions := Some ["vegetarian"];
        GenerateDietDto.mealsPerDay := None; GenerateDietDto.targetProtein := None;
        GenerateDietDto.preferredFoods := None; GenerateDietDto.avoidFoods := None;
        GenerateDietDto.preferences := None |}].
Proof. reflexivity. Qed.

(** ** Generation *)

(** C9: when the configuration is read and the selected provider resolves
    with a draft, [generateDiet] hands to the store exactly one plan: its
    [totalCalories] is the request's [calories], whatever the draft's
    meals sum to; its meals are the draft's meals as they came; and its
    [targetMacros] is the aggregate of those meals, the sums from the left
    and from zero of their protein, carbs, fat and fiber (a meal without
    fiber adding zero); nothing is scaled. *)
Theorem generateDiet_saves_target_and_unscaled_meals :
  forall (W : Type) (h : Handler W) (w : W) (dto : GenerateDietDto.t)
         (configured : option string) (aiResponse : DietDraft.t),
    fst (h _ (ConfigGet "ai.defaultProvider") w) = Returned configured ->
    fst (h _ (if String.eqb (JS.or_str configured "openai") "gemini"
              then GeminiGenerateDietPlan dto
              else OpenAiGenerateDietPlan dto)
           (snd (h _ (ConfigGet "ai.defaultProvider") w))) = Returned aiResponse ->
    exists plan : DietPlan.t,
      savedDietPlans (trace (run h (DietService.generateDiet dto) w)) = [plan] /\
      DietPlan.totalCalories plan = GenerateDietDto.calories dto /\
      DietPlan.meals plan = DietDraft.meals aiResponse /\
      DietPlan.targetMacros plan
      = DietService.calculateTotalMacros (DietDraft.meals aiResponse) /\
      DietPlan.userId plan = GenerateDietDto.userId dto /\
      DietPlan.goal plan = GenerateDietDto.goal dto /\
      Spec.SumsOfOwnMeals plan.
Proof.
  intros W h w dto configured aiResponse Hconfig Hdraft.
  exists (DietService.dietPlan dto aiResponse).
  split; [| repeat split; apply calculateTotalMacros_sums].
  unfold DietService.generateDiet, try_catch, bindT, await, trace. simpl.
  destruct (h _ (ConfigGet "ai.defaultProvider") w) as [o w1].
  simpl in Hconfig, Hdraft. subst o. simpl.
  destruct (String.eqb (JS.or_str configured "openai") "gemini"); simpl.
  - destruct (h _ (GeminiGenerateDietPlan dto) w1) as [o w2].
    simpl in Hdraft. subst o. simpl.
    destruct (h _ (SaveDietPlan (DietService.dietPlan dto aiResponse)) w2)
      as [[saved | e] w3]; reflexivity.
  - destruct (h _ (OpenAiGenerateDietPlan dto) w1) as [o w2].
    simpl in Hdraft. subst o. simpl.
    destruct (h _ (SaveDietPlan (DietService.dietPlan dto aiResponse)) w2)
      as [[saved | e] w3]; reflexivity.
Qed.

Lemma generateDiet_saves_target_and_unscaled_meals_witness :
  exists plan : DietPlan.t,
    savedDietPlans
      (trace (run Sample.handler (DietService.generateDiet Sample.request)
                  (Sample.world (Sample.num 2500)))) = [plan] /\
    DietPlan.totalCalories plan = GenerateDietDto.calories Sample.request /\
    DietPlan.meals plan
    = DietDraft.meals (Sample.dietDraft (Sample.world (Sample.num 2500))) /\
    DietPlan.targetMacros plan
    = DietService.calculateTotalMacros
        (DietDraft.meals (Sample.dietDraft (Sample.world (Sample.num 2500)))) /\
    DietPlan.userId plan = GenerateDietDto.userId Sample.request /\
    DietPlan.goal plan = GenerateDietDto.goal Sample.request /\
    Spec.SumsOfOwnMeals plan.
Proof.
  apply (generateDiet_saves_target_and_unscaled_meals Sample.World Sample.handler
           (Sample.world (Sample.num 2500)) Sample.request None
           (Sample.dietDraft (Sample.world (Sample.num 2500)))).
  - reflexivity.
  - reflexivity.
Defined.

(** The end-to-end example: the draft's meals sum to 1900 kcal, the
    request asks for 2000; the saved plan says 2000, keeps the meals of
    405 and 1495 kcal and totals their macros, 106 g of protein. *)
Example generate_1900_for_2000 :
  let r := run Sample.handler (DietService.generateDiet Sample.request)
               (Sample.world (Sample.num 2500)) in
  fold_left JS.add
    (map Meal.totalCalories (DietDraft.meals (Sample.dietDraft (Sample.world (Sample.num 2500)))))
    JS.zero = JS.of_Z 1900 /\
  map DietPlan.totalCalories (savedDietPlans (trace r)) = [JS.of_Z 2000] /\
  map (fun plan => map Meal.totalCalories (DietPlan.meals plan)) (savedDietPlans (trace r))
  = [[JS.of_Z 405; JS.of_Z 1495]] /\
  map (fun plan => TotalMacros.protein (DietPlan.targetMacros plan))
      (savedDietPlans (trace r)) = [JS.of_Z 106] /\
  ApiResponse.success (result r) = true.
Proof. vm_compute. repeat split. Qed.

(** * Further properties of the services *)

(** ** Runs and sequencing *)

(** Running a sequence is running its parts one after the other. *)
Lemma run_bind {W A B : Type} (h : Handler W) (p : Prog A) (f : A -> Prog B) :
  forall w : W,
    run h (bind p f) w
    = let '(a, w1, t1) := run h p w in
      let '(b, w2, t2) := run h (f a) w1 in
      (b, w2, (t1 ++ t2)%list).
Proof.
  induction p as [a | msg k IH | msg e k IH | R c k IH]; intros w; simpl.
  - destruct (run h (f a) w) as [[b w2] t2]. reflexivity.
  - rewrite IH. destruct (run h k w) as [[a w1] t1].
    destruct (run h (f a) w1) as [[b w2] t2]. reflexivity.
  - rewrite IH. destruct (run h k w) as [[a w1] t1].
    destruct (run h (f a) w1) as [[b w2] t2]. reflexivity.
  - destruct (h R c w) as [o w0]. rewrite IH.
    destruct (run h (k o) w0) as [[a w1] t1].
    destruct (run h (f a) w1) as [[b w2] t2]. reflexivity.
Qed.

(** Awaiting, inside a [try], a method that catches its own errors runs
    that method and nothing more: the [catch] is never entered. *)
Lemma run_try_catch_awaitProg {W A : Type} (h : Handler W) (p : Prog A)
      (handler : string -> Prog A) (w : W) :
  run h (try_catch (awaitProg p) handler) w = run h p w.
Proof.
  unfold try_catch, awaitProg. rewrite !run_bind.
  destruct (run h p w) as [[a w1] t1]. simpl.
  rewrite !app_nil_r. reflexivity.
Qed.

(** ** [getDiet] *)

(** X1: [getDiet] makes one call, the lookup, and leaves the collaborators
    as the lookup left them; a found plan is the data of a success
    envelope without message, a missing plan gives "Diet plan not found",
    and a lookup that throws gives its message under "Failed to fetch diet
    plan". *)
Theorem getDiet_outcomes :
  forall (W : Type) (h : Handler W) (w : W) (planId : string),
    let r := run h (DietService.getDiet planId) w in
    calls (trace r) = [Called (GetDietPlan planId)] /\
    final r = snd (h _ (GetDietPlan planId) w) /\
    result r
    = match fst (h _ (GetDietPlan planId) w) with
      | Returned (Some dietPlan) => createSuccessResponse dietPlan None
      | Returned None =>
          createErrorResponse "Diet plan not found"
            (Some "The requested diet plan does not exist")
      | Threw e => createErrorResponse e (Some "Failed to fetch diet plan")
      end.
Proof.
  intros W h w planId.
  unfold DietService.getDiet, try_catch, bindT, await, result, trace, final, calls.
  simpl.
  destruct (h _ (GetDietPlan planId) w) as [[[dietPlan |] | e] w1];
    simpl; repeat split.
Qed.

(** ** [adjustCalories] in the service *)

(** X2: [adjustCalories] asks nothing but the store: the lookup, and one
    save of the adjusted plan exactly when the lookup found a plan; the
    configuration and the providers are never consulted. *)
Theorem adjustCalories_only_store_calls :
  forall (W : Type) (h : Handler W) (w : W) (planId : string)
         (newCalories : JS.number),
    calls (trace (run h (DietService.adjustCalories planId newCalories) w))
    = match fst (h _ (GetDietPlan planId) w) with
      | Returned (Some existingPlan) =>
          [Called (GetDietPlan planId);
           Called (SaveDietPlan (DietService.adjustedPlan existingPlan newCalories))]
      | _ => [Called (GetDietPlan planId)]
      end.
Proof.
  intros W h w planId newCalories.
  unfold DietService.adjustCalories, try_catch, bindT, await, trace, calls.
  simpl.
  destruct (h _ (GetDietPlan planId) w) as [[[existingPlan |] | e] w1];
    simpl; try reflexivity.
  destruct (h _ (SaveDietPlan (DietService.adjustedPlan existingPlan newCalories)) w1)
    as [[saved | e] w2]; reflexivity.
Qed.

(** X3: a success of [adjustCalories] means that the plan was found, that
    the store resolved the save of the adjusted plan, and that the data of
    the envelope is what the store returned (not the adjusted plan
    itself). *)
Theorem adjustCalories_success_inversion :
  forall (W : Type) (h : Handler W) (w : W) (planId : string)
         (newCalories : JS.number),
    ApiResponse.success
      (result (run h (DietService.adjustCalories planId newCalories) w)) = true ->
    exists (existingPlan saved : DietPlan.t),
      fst (h _ (GetDietPlan planId) w) = Returned (Some existingPlan) /\
      fst (h _ (SaveDietPlan (DietService.adjustedPlan existingPlan newCalories))
             (snd (h _ (GetDietPlan planId) w))) = Returned saved /\
      result (run h (DietService.adjustCalories planId newCalories) w)
      = createSuccessResponse saved (Some "Diet plan calories adjusted successfully").
Proof.
  intros W h w planId newCalories.
  unfold DietService.adjustCalories, try_catch, bindT, await, result. simpl.
  destruct (h _ (GetDietPlan planId) w) as [[[existingPlan |] | e] w1];
    simpl; try discriminate.
  destruct (h _ (SaveDietPlan (DietService.adjustedPlan existingPlan newCalories)) w1)
    as [[saved | e] w2] eqn:E; simpl; try discriminate.
  intros _. exists existingPlan, saved.
  split; [reflexivity |]. split; [| reflexivity].
  simpl. rewrite E. reflexivity.
Qed.

Lemma adjustCalories_success_inversion_witness :
  exists (existingPlan saved : DietPlan.t),
    fst (Sample.handler _ (GetDietPlan "p1") (Sample.world (Sample.num 2000)))
    = Returned (Some existingPlan) /\
    fst (Sample.handler _
           (SaveDietPlan (DietService.adjustedPlan existingPlan (JS.of_Z 3000)))
           (snd (Sample.handler _ (GetDietPlan "p1") (Sample.world (Sample.num 2000)))))
    = Returned saved /\
    result (run Sample.handler (DietService.adjustCalories "p1" (JS.of_Z 3000))
                (Sample.world (Sample.num 2000)))
    = createSuccessResponse saved (Some "Diet plan calories adjusted successfully").
Proof.
  apply (adjustCalories_success_inversion Sample.World Sample.handler
           (Sample.world (Sample.num 2000)) "p1" (JS.of_Z 3000)).
  reflexivity.
Defined.

(** X4: a failure of [adjustCalories] is one of three.  The lookup
    answered that there is no plan: the error is "Diet plan not found",
    the lookup is the only event and nothing is logged.  Or the lookup
    threw, or it found a plan and the save of the adjusted plan threw:
    then the envelope carries the message of that very throw under
    "Failed to adjust diet calories", and the same message is logged as
    an error, last in the trace. *)
Theorem adjustCalories_failure_cases :
  forall (W : Type) (h : Handler W) (w : W) (planId : string)
         (newCalories : JS.number),
    let r := run h (DietService.adjustCalories planId newCalories) w in
    ApiResponse.success (result r) = false ->
    (fst (h _ (GetDietPlan planId) w) = Returned None /\
     result r = createErrorResponse "Diet plan not found"
                  (Some "Cannot adjust calories for non-existent plan") /\
     trace r = [Called (GetDietPlan planId)]) \/
    (exists e : string,
        fst (h _ (GetDietPlan planId) w) = Threw e /\
        result r = createErrorResponse e (Some "Failed to adjust diet calories") /\
        trace r = [Called (GetDietPlan planId);
                   LoggedError "Error adjusting diet calories:" e]) \/
    (exists (existingPlan : DietPlan.t) (e : string),
        fst (h _ (GetDietPlan planId) w) = Returned (Some existingPlan) /\
        fst (h _ (SaveDietPlan (DietService.adjustedPlan existingPlan newCalories))
               (snd (h _ (GetDietPlan planId) w))) = Threw e /\
        result r = createErrorResponse e (Some "Failed to adjust diet calories") /\
        trace r = [Called (GetDietPlan planId);
                   Called (SaveDietPlan
                             (DietService.adjustedPlan existingPlan newCalories));
                   LoggedError "Error adjusting diet calories:" e]).
Proof.
  intros W h w planId newCalories.
  unfold DietService.adjustCalories, try_catch, bindT, await, result, trace. simpl.
  destruct (h _ (GetDietPlan planId) w) as [[[existingPlan |] | e] w1]; simpl.
  - destruct (h _ (SaveDietPlan (DietService.adjustedPlan existingPlan newCalories)) w1)
      as [[saved | e] w2] eqn:E; simpl; [discriminate |].
    intros _. right. right. exists existingPlan, e.
    rewrite E. repeat split.
  - intros _. left. repeat split.
  - intros _. right. left. exists e. repeat split.
Qed.

Lemma adjustCalories_failure_cases_witness :
  let h := Sample.handler in
  let w := Sample.world (Sample.num 2000) in
  let r := run h (DietService.adjustCalories "nowhere" (JS.of_Z 3000)) w in
  (fst (h _ (GetDietPlan "nowhere") w) = Returned None /\
   result r = createErrorResponse "Diet plan not found"
                (Some "Cannot adjust calories for non-existent plan") /\
   trace r = [Called (GetDietPlan "nowhere")]) \/
  (exists e : string,
      fst (h _ (GetDietPlan "nowhere") w) = Threw e /\
      result r = createErrorResponse e (Some "Failed to adjust diet calories") /\
      trace r = [Called (GetDietPlan "nowhere");
                 LoggedError "Error adjusting diet calories:" e]) \/
  (exists (existingPlan : DietPlan.t) (e : string),
      fst (h _ (GetDietPlan "nowhere") w) = Returned (Some existingPlan) /\
      fst (h _ (SaveDietPlan (DietService.adjustedPlan existingPlan (JS.of_Z 3000)))
             (snd (h _ (GetDietPlan "nowhere") w))) = Threw e /\
      result r = createErrorResponse e (Some "Failed to adjust diet calories") /\
      trace r = [Called (GetDietPlan "nowhere");
                 Called (SaveDietPlan
                           (DietService.adjustedPlan existingPlan (JS.of_Z 3000)));
                 LoggedError "Error adjusting diet calories:" e]).
Proof.
  apply (adjustCalories_failure_cases Sample.World Sample.handler
           (Sample.world (Sample.num 2000)) "nowhere" (JS.of_Z 3000)).
  reflexivity.
Defined.

(** ** [generateDiet] *)

(** X5: when the configuration is read, [generateDiet] asks exactly one
    provider: Gemini when the setting is the string "gemini", OpenAI for
    every other setting, a missing or empty one included. *)
Theorem generateDiet_provider_selection :
  forall (W : Type) (h : Handler W) (w : W) (dto : GenerateDietDto.t)
         (configured : option string),
    fst (h _ (ConfigGet "ai.defaultProvider") w) = Returned configured ->
    providersAsked (trace (run h (DietService.generateDiet dto) w))
    = [match configured with
       | Some setting => if String.eqb setting "gemini" then "gemini" else "openai"
       | None => "openai"
       end].
Proof.
  intros W h w dto configured Hconfig.
  unfold DietService.generateDiet, try_catch, bindT, await, trace. simpl.
  destruct (h _ (ConfigGet "ai.defaultProvider") w) as [o w1].
  simpl in Hconfig. subst o. simpl.
  assert (E : String.eqb (JS.or_str configured "openai") "gemini"
              = match configured with
                | Some setting => String.eqb setting "gemini"
                | None => false
                end).
  { destruct configured as [[| c setting] |]; reflexivity. }
  rewrite E. clear E.
  destruct configured as [setting |]; [destruct (String.eqb setting "gemini") |]; simpl.
  - destruct (h _ (GeminiGenerateDietPlan dto) w1) as [[draft | e] w2];
      simpl; [| reflexivity].
    destruct (h _ (SaveDietPlan (DietService.dietPlan dto draft)) w2)
      as [[saved | e] w3]; reflexivity.
  - destruct (h _ (OpenAiGenerateDietPlan dto) w1) as [[draft | e] w2];
      simpl; [| reflexivity].
    destruct (h _ (SaveDietPlan (DietService.dietPlan dto draft)) w2)
      as [[saved | e] w3]; reflexivity.
  - destruct (h _ (OpenAiGenerateDietPlan dto) w1) as [[draft | e] w2];
      simpl; [| reflexivity].
    destruct (h _ (SaveDietPlan (DietService.dietPlan dto draft)) w2)
      as [[saved | e] w3]; reflexivity.
Qed.

Lemma generateDiet_provider_selection_witness :
  providersAsked
    (trace (run Sample.handler (DietService.generateDiet Sample.request)
                (Sample.world (Sample.num 2500))))
  = ["openai"].
Proof.
  apply (generateDiet_provider_selection Sample.World Sample.handler
           (Sample.world (Sample.num 2500)) Sample.request None).
  reflexivity.
Defined.

(** The comparison with "gemini" after the default is the comparison of
    the setting itself. *)
Lemma gemini_selected (configured : option string) :
  String.eqb (JS.or_str configured "openai") "gemini"
  = match configured with
    | Some setting => String.eqb setting "gemini"
    | None => false
    end.
Proof. destruct configured as [[| c setting] |]; reflexivity. Qed.

(** X6: the answer of [generateDiet] follows the answers of its
    collaborators, call by call.  If reading the configuration throws, or
    the selected provider (Gemini for the setting "gemini", OpenAI
    otherwise) throws, nothing is saved and the failure carries the
    message of that throw under "Failed to generate diet plan".  If the
    provider resolves with a draft, the one plan handed to the store is
    the plan built from the request and that draft; the answer is then a
    success whose data is what the store returned for it, or, if the save
    throws, a failure carrying the message of that throw.  Every thrown
    message is also logged as an error, in all cases at most one plan is
    handed to the store, and it has no id. *)
Theorem generateDiet_outcomes :
  forall (W : Type) (h : Handler W) (w : W) (dto : GenerateDietDto.t),
    let r := run h (DietService.generateDiet dto) w in
    let failure (e : string) :=
      result r = createErrorResponse e (Some "Failed to generate diet plan") /\
      In (LoggedError "Error generating diet plan:" e) (trace r) in
    let config := h _ (ConfigGet "ai.defaultProvider") w in
    match fst config with
    | Threw e => failure e /\ savedDietPlans (trace r) = []
    | Returned configured =>
        let draft :=
          h _ (if match configured with
                  | Some setting => String.eqb setting "gemini"
                  | None => false
                  end
               then GeminiGenerateDietPlan dto
               else OpenAiGenerateDietPlan dto) (snd config) in
        match fst draft with
        | Threw e => failure e /\ savedDietPlans (trace r) = []
        | Returned aiResponse =>
            let save :=
              h _ (SaveDietPlan (DietService.dietPlan dto aiResponse)) (snd draft) in
            savedDietPlans (trace r) = [DietService.dietPlan dto aiResponse] /\
            match fst save with
            | Threw e => failure e
            | Returned savedDiet =>
                result r = createSuccessResponse savedDiet
                             (Some "Diet plan generated successfully") /\
                final r = snd save
            end
        end
    end /\
    (List.length (savedDietPlans (trace r)) <= 1)%nat /\
    Forall (fun plan => DietPlan.id plan = None) (savedDietPlans (trace r)).
Proof.
  intros W h w dto.
  unfold DietService.generateDiet, try_catch, bindT, await, result, trace, final.
  simpl.
  destruct (h _ (ConfigGet "ai.defaultProvider") w) as [[configured | e] w1]; simpl.
  - rewrite gemini_selected.
    destruct (match configured with
              | Some setting => String.eqb setting "gemini"
              | None => false
              end); simpl.
    + destruct (h _ (GeminiGenerateDietPlan dto) w1) as [[draft | e] w2]; simpl.
      * destruct (h _ (SaveDietPlan (DietService.dietPlan dto draft)) w2)
          as [[saved | e] w3]; simpl.
        -- split; [repeat split |]. split; [lia | repeat constructor].
        -- split; [repeat split; auto 6 |]. split; [lia | repeat constructor].
      * split; [repeat split; auto 6 |]. split; [lia | constructor].
    + destruct (h _ (OpenAiGenerateDietPlan dto) w1) as [[draft | e] w2]; simpl.
      * destruct (h _ (SaveDietPlan (DietService.dietPlan dto draft)) w2)
          as [[saved | e] w3]; simpl.
        -- split; [repeat split |]. split; [lia | repeat constructor].
        -- split; [repeat split; auto 6 |]. split; [lia | repeat constructor].
      * split; [repeat split; auto 6 |]. split; [lia | constructor].
  - split; [repeat split; auto 6 |]. split; [lia | constructor].
Qed.

(** ** [regenerateDiet] *)

(** X7: when the plan is found, [regenerateDiet] is the lookup followed by
    [generateDiet] on the merged request, run from where the lookup left
    the collaborators: same answer, same final state, and the trace of
    the generation after the lookup. *)
Theorem regenerateDiet_is_generateDiet :
  forall (W : Type) (h : Handler W) (w : W) (planId : string)
         (existingPlan : DietPlan.t) (modifications : PartialDietDto.t),
    fst (h _ (GetDietPlan planId) w) = Returned (Some existingPlan) ->
    run h (DietService.regenerateDiet planId modifications) w
    = let r := run h (DietService.generateDiet
                        (DietService.updatedDto existingPlan modifications))
                   (snd (h _ (GetDietPlan planId) w)) in
      (result r, final r, Called (GetDietPlan planId) :: trace r).
Proof.
  intros W h w planId existingPlan modifications Hfound.
  unfold DietService.regenerateDiet.
  set (g := DietService.generateDiet (DietService.updatedDto existingPlan modifications)).
  unfold try_catch at 1. unfold bindT, await. cbn [bind run].
  destruct (h _ (GetDietPlan planId) w) as [o w1].
  simpl in Hfound. subst o. cbn [bind snd].
  fold g.
  change (run h (bind (awaitProg g) ?k) w1)
    with (run h (try_catch (awaitProg g)
                   (fun error =>
                      LoggerError "Error regenerating diet plan:" error
                        (Ret (createErrorResponse error
                                (Some "Failed to regenerate diet plan"))))) w1).
  rewrite run_try_catch_awaitProg.
  unfold result, final, trace.
  destruct (run h g w1) as [[a w2] t]. reflexivity.
Qed.

Lemma regenerateDiet_is_generateDiet_witness :
  run Sample.handler
      (DietService.regenerateDiet "p1" (Sample.withGoal "cut" Sample.noDietModifications))
      (Sample.world (Sample.num 2500))
  = let r := run Sample.handler
                 (DietService.generateDiet
                    (DietService.updatedDto (Sample.plan (Sample.num 2500))
                       (Sample.withGoal "cut" Sample.noDietModifications)))
                 (snd (Sample.handler _ (GetDietPlan "p1")
                         (Sample.world (Sample.num 2500)))) in
    (result r, final r, Called (GetDietPlan "p1") :: trace r).
Proof.
  apply (regenerateDiet_is_generateDiet Sample.World Sample.handler
           (Sample.world (Sample.num 2500)) "p1" (Sample.plan (Sample.num 2500))
           (Sample.withGoal "cut" Sample.noDietModifications)).
  reflexivity.
Defined.

(** X8: when the lookup finds no plan or throws, [regenerateDiet] stops
    there: the lookup is its only call, no provider is asked and nothing
    is saved; a missing plan gives "Diet plan not found" and a throwing
    lookup its message under "Failed to regenerate diet plan". *)
Theorem regenerateDiet_without_plan :
  forall (W : Type) (h : Handler W) (w : W) (planId : string)
         (modifications : PartialDietDto.t),
    (forall existingPlan : DietPlan.t,
        fst (h _ (GetDietPlan planId) w) <> Returned (Some existingPlan)) ->
    let r := run h (DietService.regenerateDiet planId modifications) w in
    calls (trace r) = [Called (GetDietPlan planId)] /\
    result r
    = match fst (h _ (GetDietPlan planId) w) with
      | Threw e => createErrorResponse e (Some "Failed to regenerate diet plan")
      | _ => createErrorResponse "Diet plan not found"
               (Some "Cannot regenerate non-existent plan")
      end.
Proof.
  intros W h w planId modifications Hmissing.
  unfold DietService.regenerateDiet, try_catch, bindT, await, result, trace, calls.
  cbn [bind run].
  destruct (h _ (GetDietPlan planId) w) as [[[existingPlan |] | e] w1].
  - exfalso. apply (Hmissing existingPlan). reflexivity.
  - split; reflexivity.
  - split; reflexivity.
Qed.

Lemma regenerateDiet_without_plan_witness :
  let r := run Sample.handler
               (DietService.regenerateDiet "nowhere" Sample.noDietModifications)
               (Sample.world (Sample.num 2500)) in
  calls (trace r) = [Called (GetDietPlan "nowhere")] /\
  result r
  = match fst (Sample.handler _ (GetDietPlan "nowhere") (Sample.world (Sample.num 2500))) with
    | Threw e => createErrorResponse e (Some "Failed to regenerate diet plan")
    | _ => createErrorResponse "Diet plan not found"
             (Some "Cannot regenerate non-existent plan")
    end.
Proof.
  apply (regenerateDiet_without_plan Sample.World Sample.handler
           (Sample.world (Sample.num 2500)) "nowhere" Sample.noDietModifications).
  intros existingPlan. simpl. discriminate.
Defined.

(** ** The workout service *)

(** X9: [getWorkout] makes one call, the lookup, and leaves the
    collaborators as the lookup left them; a found plan is the data of a
    success envelope without message, a missing plan gives "Workout plan
    not found", and a lookup that throws gives its message under "Failed
    to fetch workout plan". *)
Theorem getWorkout_outcomes :
  forall (W : Type) (h : Handler W) (w : W) (planId : string),
    let r := run h (WorkoutService.getWorkout planId) w in
    calls (trace r) = [Called (GetWorkoutPlan planId)] /\
    final r = snd (h _ (GetWorkoutPlan planId) w) /\
    result r
    = match fst (h _ (GetWorkoutPlan planId) w) with
      | Returned (Some workoutPlan) => createSuccessResponse workoutPlan None
      | Returned None =>
          createErrorResponse "Workout plan not found"
            (Some "The requested workout plan does not exist")
      | Threw e => createErrorResponse e (Some "Failed to fetch workout plan")
      end.
Proof.
  intros W h w planId.
  unfold WorkoutService.getWorkout, try_catch, bindT, await, result, trace, final, calls.
  simpl.
  destruct (h _ (GetWorkoutPlan planId) w) as [[[workoutPlan |] | e] w1];
    simpl; repeat split.
Qed.

(** X10: when the configuration is read and the selected provider (Gemini
    for the setting "gemini", OpenAI otherwise) resolves with a draft,
    [generateWorkout] hands to the store exactly one plan, without id:
    [userId], [goal], [difficulty] and [daysPerWeek] are the request's,
    [estimatedDuration] is the request's [duration], and the name, the
    description and the exercises are the draft's. *)
Theorem generateWorkout_saves :
  forall (W : Type) (h : Handler W) (w : W) (dto : GenerateWorkoutDto.t)
         (configured : option string) (aiResponse : WorkoutDraft.t),
    fst (h _ (ConfigGet "ai.defaultProvider") w) = Returned configured ->
    fst (h _ (if match configured with
                 | Some setting => String.eqb setting "gemini"
                 | None => false
                 end
              then GeminiGenerateWorkoutPlan dto
              else OpenAiGenerateWorkoutPlan dto)
           (snd (h _ (ConfigGet "ai.defaultProvider") w))) = Returned aiResponse ->
    exists plan : WorkoutPlan.t,
      savedWorkoutPlans (trace (run h (WorkoutService.generateWorkout dto) w)) = [plan] /\
      WorkoutPlan.id plan = None /\
      WorkoutPlan.userId plan = GenerateWorkoutDto.userId dto /\
      WorkoutPlan.goal plan = GenerateWorkoutDto.goal dto /\
      WorkoutPlan.difficulty plan = GenerateWorkoutDto.difficulty dto /\
      WorkoutPlan.daysPerWeek plan = GenerateWorkoutDto.daysPerWeek dto /\
      WorkoutPlan.estimatedDuration plan = GenerateWorkoutDto.duration dto /\
      WorkoutPlan.name plan = WorkoutDraft.name aiResponse /\
      WorkoutPlan.description plan = WorkoutDraft.description aiResponse /\
      WorkoutPlan.exercises plan = WorkoutDraft.exercises aiResponse.
Proof.
  intros W h w dto configured aiResponse Hconfig Hdraft.
  exists (WorkoutService.workoutPlan dto aiResponse).
  split; [| repeat split].
  unfold WorkoutService.generateWorkout, try_catch, bindT, await, trace. simpl.
  destruct (h _ (ConfigGet "ai.defaultProvider") w) as [o w1].
  simpl in Hconfig, Hdraft. subst o. simpl.
  rewrite gemini_selected.
  destruct (match configured with
            | Some setting => String.eqb setting "gemini"
            | None => false
            end); simpl.
  - destruct (h _ (GeminiGenerateWorkoutPlan dto) w1) as [o w2].
    simpl in Hdraft. subst o. simpl.
    destruct (h _ (SaveWorkoutPlan (WorkoutService.workoutPlan dto aiResponse)) w2)
      as [[saved | e] w3]; reflexivity.
  - destruct (h _ (OpenAiGenerateWorkoutPlan dto) w1) as [o w2].
    simpl in Hdraft. subst o. simpl.
    destruct (h _ (SaveWorkoutPlan (WorkoutService.workoutPlan dto aiResponse)) w2)
      as [[saved | e] w3]; reflexivity.
Qed.

Lemma generateWorkout_saves_witness :
  let dto := WorkoutService.updatedDto Sample.workout Sample.noWorkoutModifications in
  let w := Sample.world (Sample.num 2500) in
  exists plan : WorkoutPlan.t,
    savedWorkoutPlans (trace (run Sample.handler (WorkoutService.generateWorkout dto) w))
    = [plan] /\
    WorkoutPlan.id plan = None /\
    WorkoutPlan.userId plan = GenerateWorkoutDto.userId dto /\
    WorkoutPlan.goal plan = GenerateWorkoutDto.goal dto /\
    WorkoutPlan.difficulty plan = GenerateWorkoutDto.difficulty dto /\
    WorkoutPlan.daysPerWeek plan = GenerateWorkoutDto.daysPerWeek dto /\
    WorkoutPlan.estimatedDuration plan = GenerateWorkoutDto.duration dto /\
    WorkoutPlan.name plan = WorkoutDraft.name (Sample.workoutDraft w) /\
    WorkoutPlan.description plan = WorkoutDraft.description (Sample.workoutDraft w) /\
    WorkoutPlan.exercises plan = WorkoutDraft.exercises (Sample.workoutDraft w).
Proof.
  apply (generateWorkout_saves Sample.World Sample.handler
           (Sample.world (Sample.num 2500))
           (WorkoutService.updatedDto Sample.workout Sample.noWorkoutModifications)
           None (Sample.workoutDraft (Sample.world (Sample.num 2500)))).
  - reflexivity.
  - reflexivity.
Defined.

(** X11: when the workout is found, [regenerateWorkout] is the lookup
    followed by [generateWorkout] on the merged request, run from where
    the lookup left the collaborators. *)
Theorem regenerateWorkout_is_generateWorkout :
  forall (W : Type) (h : Handler W) (w : W) (planId : string)
         (existingPlan : WorkoutPlan.t) (modifications : PartialWorkoutDto.t),
    fst (h _ (GetWorkoutPlan planId) w) = Returned (Some existingPlan) ->
    run h (WorkoutService.regenerateWorkout planId modifications) w
    = let r := run h (WorkoutService.generateWorkout
                        (WorkoutService.updatedDto existingPlan modifications))
                   (snd (h _ (GetWorkoutPlan planId) w)) in
      (result r, final r, Called (GetWorkoutPlan planId) :: trace r).
Proof.
  intros W h w planId existingPlan modifications Hfound.
  unfold WorkoutService.regenerateWorkout.
  set (g := WorkoutService.generateWorkout
              (WorkoutService.updatedDto existingPlan modifications)).
  unfold try_catch at 1. unfold bindT, await. cbn [bind run].
  destruct (h _ (GetWorkoutPlan planId) w) as [o w1].
  simpl in Hfound. subst o. cbn [bind snd].
  fold g.
  change (run h (bind (awaitProg g) ?k) w1)
    with (run h (try_catch (awaitProg g)
                   (fun error =>
                      LoggerError "Error regenerating workout:" error
                        (Ret (createErrorResponse error
                                (Some "Failed to regenerate workout plan"))))) w1).
  rewrite run_try_catch_awaitProg.
  unfold result, final, trace.
  destruct (run h g w1) as [[a w2] t]. reflexivity.
Qed.

Lemma regenerateWorkout_is_generateWorkout_witness :
  run Sample.handler
      (WorkoutService.regenerateWorkout "w1"
         (Sample.withWorkoutGoal "cut" Sample.noWorkoutModifications))
      (Sample.world (Sample.num 2500))
  = let r := run Sample.handler
                 (WorkoutService.generateWorkout
                    (WorkoutService.updatedDto Sample.workout
                       (Sample.withWorkoutGoal "cut" Sample.noWorkoutModifications)))
                 (snd (Sample.handler _ (GetWorkoutPlan "w1")
                         (Sample.world (Sample.num 2500)))) in
    (result r, final r, Called (GetWorkoutPlan "w1") :: trace r).
Proof.
  apply (regenerateWorkout_is_generateWorkout Sample.World Sample.handler
           (Sample.world (Sample.num 2500)) "w1" Sample.workout
           (Sample.withWorkoutGoal "cut" Sample.noWorkoutModifications)).
  reflexivity.
Defined.

(** X12: when the lookup finds no workout or throws, [regenerateWorkout]
    stops there: the lookup is its only call, no provider is asked and
    nothing is saved. *)
Theorem regenerateWorkout_without_plan :
  forall (W : Type) (h : Handler W) (w : W) (planId : string)
         (modifications : PartialWorkoutDto.t),
    (forall existingPlan : WorkoutPlan.t,
        fst (h _ (GetWorkoutPlan planId) w) <> Returned (Some existingPlan)) ->
    let r := run h (WorkoutService.regenerateWorkout planId modifications) w in
    calls (trace r) = [Called (GetWorkoutPlan planId)] /\
    result r
    = match fst (h _ (GetWorkoutPlan planId) w) with
      | Threw e => createErrorResponse e (Some "Failed to regenerate workout plan")
      | _ => createErrorResponse "Workout plan not found"
               (Some "Cannot regenerate non-existent plan")
      end.
Proof.
  intros W h w planId modifications Hmissing.
  unfold WorkoutService.regenerateWorkout, try_catch, bindT, await, result, trace, calls.
  cbn [bind run].
  destruct (h _ (GetWorkoutPlan planId) w) as [[[existingPlan |] | e] w1].
  - exfalso. apply (Hmissing existingPlan). reflexivity.
  - split; reflexivity.
  - split; reflexivity.
Qed.

Lemma regenerateWorkout_without_plan_witness :
  let r := run Sample.handler
               (WorkoutService.regenerateWorkout "nowhere" Sample.noWorkoutModifications)
               (Sample.world (Sample.num 2500)) in
  calls (trace r) = [Called (GetWorkoutPlan "nowhere")] /\
  result r
  = match fst (Sample.handler _ (GetWorkoutPlan "nowhere")
                 (Sample.world (Sample.num 2500))) with
    | Threw e => createErrorResponse e (Some "Failed to regenerate workout plan")
    | _ => createErrorResponse "Workout plan not found"
             (Some "Cannot regenerate non-existent plan")
    end.
Proof.
  apply (regenerateWorkout_without_plan Sample.World Sample.handler
           (Sample.world (Sample.num 2500)) "nowhere" Sample.noWorkoutModifications).
  intros existingPlan. simpl. discriminate.
Defined.

(** ** What the controller reads from the [calories] parameter *)

Lemma trimStart_app_space (ws s : JS.code_units) :
  forallb JS.isStrWhiteSpaceChar ws = true ->
  JS.trimStart (ws ++ s)%list = JS.trimStart s.
Proof.
  induction ws as [| c ws IH]; simpl; intros H; [reflexivity |].
  apply andb_true_iff in H. destruct H as [Hc Hws].
  rewrite Hc. apply IH, Hws.
Qed.

Lemma trimStart_app_rest (s rest : JS.code_units) :
  JS.trimStart s <> [] ->
  JS.trimStart (s ++ rest)%list = (JS.trimStart s ++ rest)%list.
Proof.
  induction s as [| c s IH]; simpl; intros H; [contradiction H; reflexivity |].
  destruct (JS.isStrWhiteSpaceChar c); [apply IH, H | reflexivity].
Qed.

Lemma leadingDigits_app_other (s rest : JS.code_units) (c : N) :
  JS.isDigit c = false ->
  Spec.leadingDigits (s ++ c :: rest)%list = Spec.leadingDigits s.
Proof.
  intros Hc. induction s as [| d s IH]; simpl.
  - rewrite Hc. reflexivity.
  - destruct (JS.isDigit d); [rewrite IH |]; reflexivity.
Qed.

Lemma leadingDigits_are_digits (s : JS.code_units) :
  forallb JS.isDigit (Spec.leadingDigits s) = true.
Proof.
  induction s as [| c s IH]; simpl; [reflexivity |].
  destruct (JS.isDigit c) eqn:E; simpl; [rewrite E; exact IH | reflexivity].
Qed.

Lemma decimal_nonneg (digits : JS.code_units) :
  forall acc : Z,
    0 <= acc -> forallb JS.isDigit digits = true -> 0 <= Spec.decimal acc digits.
Proof.
  unfold Spec.decimal.
  induction digits as [| c digits IH]; intros acc Hacc H;
    cbn [fold_left forallb] in *; [exact Hacc |].
  apply andb_true_iff in H. destruct H as [Hc Hds].
  apply IH; [| exact Hds].
  unfold JS.isDigit in Hc. apply andb_true_iff in Hc. destruct Hc as [Hlo _].
  apply N.leb_le in Hlo. lia.
Qed.

(** X13: white space in front of the parameter changes nothing: the
    controller does with it what it does with the rest. *)
Theorem adjustCalories_ignores_leading_space :
  forall (id : string) (ws calories : JS.code_units),
    forallb JS.isStrWhiteSpaceChar ws = true ->
    DietController.adjustCalories id (ws ++ calories)%list
    = DietController.adjustCalories id calories.
Proof.
  intros id ws calories Hws.
  unfold DietController.adjustCalories, JS.parseInt10.
  rewrite trimStart_app_space by exact Hws. reflexivity.
Qed.

Lemma adjustCalories_ignores_leading_space_witness :
  DietController.adjustCalories "p1" (JS.units "  " ++ JS.units "1500")%list
  = DietController.adjustCalories "p1" (JS.units "1500").
Proof.
  apply (adjustCalories_ignores_leading_space "p1" (JS.units "  ") (JS.units "1500")).
  reflexivity.
Defined.

(** X14: once the parameter holds something besides white space, what
    comes from the first character that is not a digit on is not looked
    at: appending such a character and anything after it changes
    nothing. *)
Theorem adjustCalories_ignores_what_follows :
  forall (id : string) (calories rest : JS.code_units) (c : N),
    JS.trimStart calories <> [] ->
    JS.isDigit c = false ->
    DietController.adjustCalories id (calories ++ c :: rest)%list
    = DietController.adjustCalories id calories.
Proof.
  intros id calories rest c Hs Hc.
  unfold DietController.adjustCalories, JS.parseInt10.
  rewrite trimStart_app_rest by exact Hs.
  destruct (JS.trimStart calories) as [| d s']; [contradiction Hs; reflexivity |].
  assert (E : JS.readSign ((d :: s') ++ c :: rest)%list
              = (fst (JS.readSign (d :: s')),
                 (snd (JS.readSign (d :: s')) ++ c :: rest)%list)).
  { simpl. destruct d as [| p]; [reflexivity |].
    do 6 (destruct p as [p | p |]; try reflexivity). }
  rewrite E. destruct (JS.readSign (d :: s')) as [negative body]. simpl.
  rewrite !readDigits_leadingDigits, leadingDigits_app_other by exact Hc.
  reflexivity.
Qed.

Lemma adjustCalories_ignores_what_follows_witness :
  DietController.adjustCalories "p1" (JS.units "1500" ++ 46%N :: JS.units "75")%list
  = DietController.adjustCalories "p1" (JS.units "1500").
Proof.
  apply (adjustCalories_ignores_what_follows "p1" (JS.units "1500") (JS.units "75") 46%N).
  - simpl. discriminate.
  - reflexivity.
Defined.

(** X15: a parameter that starts, after white space, with a minus sign is
    always rejected, and the service is not entered. *)
Theorem adjustCalories_rejects_minus :
  forall (id : string) (calories rest : JS.code_units),
    JS.trimStart calories = 45%N :: rest ->
    DietController.adjustCalories id calories = Ret DietController.invalidCalories.
Proof.
  intros id calories rest Hminus.
  unfold DietController.adjustCalories, JS.parseInt10.
  rewrite Hminus. simpl.
  rewrite readDigits_leadingDigits.
  pose proof (decimal_nonneg (Spec.leadingDigits rest) 0 (Z.le_refl 0)
                (leadingDigits_are_digits rest)) as Hpos.
  destruct (Spec.leadingDigits rest) as [| d ds]; cbn [option_map]; [reflexivity |].
  destruct (Z.ltb_spec (- Spec.decimal 0 (d :: ds)) 1000) as [_ | Hge];
    [reflexivity | lia].
Qed.

Lemma adjustCalories_rejects_minus_witness :
  DietController.adjustCalories "p1" (JS.units " -1500")
  = Ret DietController.invalidCalories.
Proof.
  apply (adjustCalories_rejects_minus "p1" (JS.units " -1500") (JS.units "1500")).
  reflexivity.
Defined.

(** A table over a range of integers. *)
Lemma table_range (f : Z -> bool) (lo n : nat) :
  forallb (fun k => f (Z.of_nat k)) (seq lo n) = true ->
  forall z : Z, Z.of_nat lo <= z < Z.of_nat (lo + n) -> f z = true.
Proof.
  intros Htab z Hz.
  rewrite forallb_forall in Htab.
  specialize (Htab (Z.to_nat z)).
  rewrite Z2Nat.id in Htab by lia.
  apply Htab. apply in_seq. lia.
Qed.

Lemma numeral_table :
  forallb (fun k => match JS.parseInt10 (numeral (Z.of_nat k)) with
                    | Some z => z =? Z.of_nat k
                    | None => false
                    end) (seq 1000 4001) = true.
Proof. vm_compute. reflexivity. Qed.

(** X16: every integer from 1000 to 5000, written as a decimal numeral,
    passes the controller, and the service is entered with that
    integer as a Number. *)
Theorem adjustCalories_accepts_numerals :
  forall (id : string) (n : Z),
    1000 <= n <= 5000 ->
    DietController.adjustCalories id (numeral n)
    = DietService.adjustCalories id (JS.of_Z n).
Proof.
  intros id n Hn.
  pose proof (table_range
                (fun z => match JS.parseInt10 (numeral z) with
                          | Some z' => z' =? z
                          | None => false
                          end) 1000 4001 numeral_table n) as Htab.
  simpl in Htab. specialize (Htab ltac:(lia)).
  unfold DietController.adjustCalories.
  destruct (JS.parseInt10 (numeral n)) as [z |]; [| discriminate Htab].
  apply Z.eqb_eq in Htab. subst z.
  destruct (Z.ltb_spec n 1000); [lia |].
  destruct (Z.gtb_spec n 5000); [lia |].
  reflexivity.
Qed.

Lemma adjustCalories_accepts_numerals_witness :
  DietController.adjustCalories "p1" (numeral 2200)
  = DietService.adjustCalories "p1" (JS.of_Z 2200).
Proof.
  apply (adjustCalories_accepts_numerals "p1" 2200). lia.
Defined.

Example numeral_1500 : numeral 1500 = JS.units "1500".
Proof. reflexivity. Qed.

(** ** Generating, then regenerating *)

(** X17: the request merged from a freshly generated plan and no
    modifications is the original request read back: same [userId],
    [calories] and [goal], the restrictions with their default [[]], and
    none of [mealsPerDay], [targetProtein], [preferredFoods],
    [avoidFoods], [preferences], which the plan does not hold.  Likewise
    for workouts, whose [equipment], [targetMuscles] and [preferences] are
    lost. *)
Theorem regenerate_reads_request_back :
  (forall (dto : GenerateDietDto.t) (aiResponse : DietDraft.t),
      DietService.updatedDto (DietService.dietPlan dto aiResponse)
                             Sample.noDietModifications
      = readBack dto) /\
  (forall (dto : GenerateWorkoutDto.t) (aiResponse : WorkoutDraft.t),
      WorkoutService.updatedDto (WorkoutService.workoutPlan dto aiResponse)
                                Sample.noWorkoutModifications
      = readBackWorkout dto).
Proof. split; intros; reflexivity. Qed.

(** X18: modifications that restate a whole request, with truthy
    [calories], a non-empty [goal] and restrictions, override everything
    the stored plan holds except its owner. *)
Theorem updatedDto_full_modifications :
  forall (existingPlan : DietPlan.t) (dto : GenerateDietDto.t),
    JS.truthy (GenerateDietDto.calories dto) = true ->
    GenerateDietDto.goal dto <> "" ->
    GenerateDietDto.restrictions dto <> None ->
    DietService.updatedDto existingPlan (asDietModifications dto)
    = ownedBy (DietPlan.userId existingPlan) dto.
Proof.
  intros existingPlan [userId calories goal restrictions mealsPerDay targetProtein
                         preferredFoods avoidFoods preferences].
  simpl. intros Hc Hg Hr.
  unfold DietService.updatedDto, ownedBy, asDietModifications; simpl.
  rewrite Hc.
  destruct goal as [| c goal]; [contradiction Hg; reflexivity |].
  destruct restrictions as [restrictions |]; [| contradiction Hr; reflexivity].
  reflexivity.
Qed.

Lemma updatedDto_full_modifications_witness :
  DietService.updatedDto (Sample.plan (Sample.num 2500))
                         (asDietModifications
                            (readBack (ownedBy "someone" Sample.request)))
  = ownedBy "u1" (readBack (ownedBy "someone" Sample.request)).
Proof.
  apply (updatedDto_full_modifications (Sample.plan (Sample.num 2500))
           (readBack (ownedBy "someone" Sample.request))).
  - reflexivity.
  - simpl. discriminate.
  - simpl. discriminate.
Defined.

(** ** The aggregate and the order of the meals *)

Lemma add_comm (x y : JS.number) : JS.add x y = JS.add y x.
Proof.
  destruct x as [sx | sx | | sx mx ex], y as [sy | sy | | sy my ey];
    try reflexivity.
  - destruct sx, sy; reflexivity.
  - destruct sx, sy; reflexivity.
  - unfold JS.add, SFadd.
    rewrite (Z.min_comm ey ex), (Z.add_comm (cond_Zopp sy _)). reflexivity.
Qed.

(** Adding first to zero, two Numbers can be exchanged. *)
Lemma add_from_zero_swap (a b : JS.number) :
  JS.add (JS.add JS.zero a) b = JS.add (JS.add JS.zero b) a.
Proof.
  destruct a as [sa | sa | | sa ma ea], b as [sb | sb | | sb mb eb];
    try reflexivity;
    try (destruct sa; reflexivity);
    try (destruct sb; reflexivity);
    try (destruct sa, sb; reflexivity).
  change (JS.add JS.zero (S754_finite sa ma ea)) with (S754_finite sa ma ea).
  change (JS.add JS.zero (S754_finite sb mb eb)) with (S754_finite sb mb eb).
  apply add_comm.
Qed.

(** X19: the aggregate of two meals does not depend on their order. *)
Theorem calculateTotalMacros_two_meals :
  forall a b : Meal.t,
    DietService.calculateTotalMacros [a; b] = DietService.calculateTotalMacros [b; a].
Proof.
  intros a b. unfold DietService.calculateTotalMacros. cbn [fold_left].
  cbn [TotalMacros.protein TotalMacros.carbs TotalMacros.fat TotalMacros.fiber].
  f_equal; apply add_from_zero_swap.
Qed.

(** With three meals the order can matter, because the additions round:
    2^53 + 1 + 1 is 2^53, while 1 + 1 + 2^53 is 2^53 + 2. *)
Example calculateTotalMacros_three_meals :
  let meal protein :=
    {| Meal.name := "Meal"; Meal.items := []; Meal.totalCalories := JS.zero;
       Meal.macros := {| Macros.protein := JS.of_Z protein; Macros.carbs := JS.zero;
                         Macros.fat := JS.zero; Macros.fiber := None |} |} in
  TotalMacros.protein
    (DietService.calculateTotalMacros [meal (2 ^ 53); meal 1; meal 1])
  = JS.of_Z (2 ^ 53) /\
  TotalMacros.protein
    (DietService.calculateTotalMacros [meal 1; meal 1; meal (2 ^ 53)])
  = JS.of_Z (2 ^ 53 + 2).
Proof. vm_compute. split; reflexivity. Qed.

(** ** Adjusting to the calories a plan already has *)

Lemma sameNumber_eq (x y : JS.number) : sameNumber x y = true -> x = y.
Proof.
  destruct x as [a | a | | a m e], y as [b | b | | b m' e'];
    simpl; try discriminate; intros H.
  - apply Bool.eqb_prop in H. subst. reflexivity.
  - apply Bool.eqb_prop in H. subst. reflexivity.
  - reflexivity.
  - apply andb_true_iff in H. destruct H as [H He].
    apply andb_true_iff in H. destruct H as [Hs Hm].
    apply Bool.eqb_prop in Hs. apply Pos.eqb_eq in Hm. apply Z.eqb_eq in He.
    subst. reflexivity.
Qed.

Lemma rangeZ_table (f : Z -> bool) (lo hi : Z) :
  forallb f (rangeZ lo hi) = true ->
  forall z : Z, lo <= z <= hi -> f z = true.
Proof.
  intros Htab z Hz.
  rewrite forallb_forall in Htab. apply Htab.
  unfold rangeZ. apply in_map_iff.
  exists (Z.to_nat (z - lo)). split; [lia |].
  apply in_seq. lia.
Qed.

Lemma factor_one_table :
  forallb (fun z => sameNumber (JS.div (JS.of_Z z) (JS.of_Z z)) (JS.of_Z 1))
          (rangeZ 1000 5000) = true.
Proof. vm_compute. reflexivity. Qed.

Lemma scale_by_one_table :
  forallb (fun z => sameNumber (DietService.scale (JS.of_Z z) (JS.of_Z 1)) (JS.of_Z z))
          (rangeZ 0 wholeBound) = true.
Proof. vm_compute. reflexivity. Qed.

Lemma truthy_table :
  forallb (fun z => JS.truthy (JS.of_Z z)) (rangeZ 1 wholeBound) = true.
Proof. vm_compute. reflexivity. Qed.

(** A target divided by itself is exactly one. *)
Lemma factor_one (T : Z) :
  1000 <= T <= 5000 -> JS.div (JS.of_Z T) (JS.of_Z T) = JS.of_Z 1.
Proof.
  intros HT. apply sameNumber_eq.
  exact (rangeZ_table _ 1000 5000 factor_one_table T HT).
Qed.

Lemma scale_whole (lo : Z) (x : JS.number) :
  0 <= lo -> Whole lo wholeBound x -> DietService.scale x (JS.of_Z 1) = x.
Proof.
  intros Hlo (n & Hn & ->). apply sameNumber_eq.
  apply (rangeZ_table _ 0 wholeBound scale_by_one_table n). lia.
Qed.

Lemma scaleIfTruthy_whole (x : option JS.number) :
  WholeIfPresent 1 wholeBound x -> DietService.scaleIfTruthy x (JS.of_Z 1) = x.
Proof.
  destruct x as [v |]; [| reflexivity].
  intros Hv. unfold DietService.scaleIfTruthy. cbn [JS.truthy_opt option_map].
  rewrite (scale_whole 1 v) by (lia || exact Hv).
  destruct Hv as (n & Hn & ->).
  rewrite (rangeZ_table _ 1 wholeBound truthy_table n Hn).
  reflexivity.
Qed.

Lemma map_fixed {A : Type} (f : A -> A) (l : list A) :
  Forall (fun x => f x = x) l -> map f l = l.
Proof.
  induction 1 as [| x l Hx _ IH]; simpl; [reflexivity |].
  rewrite Hx, IH. reflexivity.
Qed.

Lemma adjustedItem_whole (i : NutritionItem.t) :
  WholeItem wholeBound i -> DietService.adjustedItem (JS.of_Z 1) i = i.
Proof.
  destruct i as [name quantity calories protein carbs fat].
  unfold WholeItem, DietService.adjustedItem; cbn -[JS.of_Z DietService.scale
                                                      DietService.scaleIfTruthy].
  intros (Hc & Hp & Hcb & Hf).
  rewrite (scale_whole 0 calories) by (lia || exact Hc).
  rewrite !scaleIfTruthy_whole by assumption.
  reflexivity.
Qed.

Lemma adjustedMeal_whole (m : Meal.t) :
  WholeMeal wholeBound m -> DietService.adjustedMeal (JS.of_Z 1) m = m.
Proof.
  destruct m as [name items totalCalories [protein carbs fat fiber]].
  unfold WholeMeal, DietService.adjustedMeal; cbn -[JS.of_Z DietService.scale
                                                      DietService.scaleIfTruthy
                                                      DietService.adjustedItem].
  intros (Ht & Hp & Hc & Hf & Hfb & Hitems).
  rewrite (scale_whole 0 totalCalories) by (lia || exact Ht).
  rewrite (scale_whole 0 protein) by (lia || exact Hp).
  rewrite (scale_whole 0 carbs) by (lia || exact Hc).
  rewrite (scale_whole 0 fat) by (lia || exact Hf).
  rewrite scaleIfTruthy_whole by exact Hfb.
  rewrite map_fixed; [reflexivity |].
  apply Forall_impl with (2 := Hitems). apply adjustedItem_whole.
Qed.

(** X20: adjusting a plan to the target it already carries (between 1000
    and 5000) leaves the meals as they are, provided that every quantity
    is a whole Number of at most 10000 and that no optional quantity is
    present with the value 0; the factor is then exactly 1. *)
Theorem adjustCalories_same_target :
  forall (P : DietPlan.t) (T : Z),
    1000 <= T <= 5000 ->
    DietPlan.totalCalories P = JS.of_Z T ->
    Forall (WholeMeal wholeBound) (DietPlan.meals P) ->
    DietService.scalingFactor (JS.of_Z T) P = JS.of_Z 1 /\
    DietPlan.meals (DietService.adjustedPlan P (JS.of_Z T)) = DietPlan.meals P /\
    DietPlan.totalCalories (DietService.adjustedPlan P (JS.of_Z T))
    = DietPlan.totalCalories P /\
    DietPlan.targetMacros (DietService.adjustedPlan P (JS.of_Z T))
    = DietService.calculateTotalMacros (DietPlan.meals P).
Proof.
  intros P T HT Htotal Hwhole.
  assert (Hf : DietService.scalingFactor (JS.of_Z T) P = JS.of_Z 1).
  { unfold DietService.scalingFactor. rewrite Htotal. apply factor_one, HT. }
  assert (Hmeals : DietService.adjustedMeals P (JS.of_Z T) = DietPlan.meals P).
  { unfold DietService.adjustedMeals. rewrite Hf.
    apply map_fixed. apply Forall_impl with (2 := Hwhole). apply adjustedMeal_whole. }
  split; [exact Hf |].
  cbn [DietService.adjustedPlan DietPlan.meals DietPlan.totalCalories
         DietPlan.targetMacros].
  rewrite Hmeals, Htotal. repeat split.
Qed.

Ltac whole n := exists n; split; [unfold wholeBound; lia | reflexivity].

Lemma adjustCalories_same_target_witness :
  let P := planOf Sample.lunch (JS.of_Z 1500) in
  DietService.scalingFactor (JS.of_Z 1500) P = JS.of_Z 1 /\
  DietPlan.meals (DietService.adjustedPlan P (JS.of_Z 1500)) = DietPlan.meals P /\
  DietPlan.totalCalories (DietService.adjustedPlan P (JS.of_Z 1500))
  = DietPlan.totalCalories P /\
  DietPlan.targetMacros (DietService.adjustedPlan P (JS.of_Z 1500))
  = DietService.calculateTotalMacros (DietPlan.meals P).
Proof.
  apply (adjustCalories_same_target (planOf Sample.lunch (JS.of_Z 1500)) 1500).
  - lia.
  - reflexivity.
  - constructor; [| constructor].
    split; [whole 1495 |]. split; [whole 95 |]. split; [whole 60 |].
    split; [whole 55 |]. split; [exact I |].
    constructor; [| constructor].
    split; [whole 1495 |]. split; [whole 95 |]. split; [whole 60 | whole 55].
Defined.

(** ** What reaches the store *)

Lemma generateDiet_saved_plans {W : Type} (h : Handler W) (w : W)
      (dto : GenerateDietDto.t) :
  Forall (fun plan => DietPlan.id plan = None)
         (savedDietPlans (trace (run h (DietService.generateDiet dto) w))).
Proof.
  unfold DietService.generateDiet, try_catch, bindT, await, trace. simpl.
  destruct (h _ (ConfigGet "ai.defaultProvider") w) as [[configured | e] w1]; simpl;
    [| constructor].
  destruct (String.eqb (JS.or_str configured "openai") "gemini"); simpl.
  - destruct (h _ (GeminiGenerateDietPlan dto) w1) as [[draft | e] w2]; simpl;
      [| constructor].
    destruct (h _ (SaveDietPlan (DietService.dietPlan dto draft)) w2)
      as [[saved | e] w3]; simpl; repeat constructor.
  - destruct (h _ (OpenAiGenerateDietPlan dto) w1) as [[draft | e] w2]; simpl;
      [| constructor].
    destruct (h _ (SaveDietPlan (DietService.dietPlan dto draft)) w2)
      as [[saved | e] w3]; simpl; repeat constructor.
Qed.

(** X21: whatever the collaborators answer, [regenerateDiet] never hands
    the store a plan with an id: the regenerated plan is saved as a new
    plan, not under the id that was looked up. *)
Theorem regenerateDiet_saves_without_id :
  forall (W : Type) (h : Handler W) (w : W) (planId : string)
         (modifications : PartialDietDto.t),
    Forall (fun plan => DietPlan.id plan = None)
           (savedDietPlans
              (trace (run h (DietService.regenerateDiet planId modifications) w))).
Proof.
  intros W h w planId modifications.
  unfold DietService.regenerateDiet.
  unfold try_catch at 1. unfold bindT, await. cbn [bind run].
  destruct (h _ (GetDietPlan planId) w) as [[[existingPlan |] | e] w1];
    cbn [bind]; try (simpl; constructor).
  set (g := DietService.generateDiet (DietService.updatedDto existingPlan modifications)).
  change (run h (bind (awaitProg g) ?k) w1)
    with (run h (try_catch (awaitProg g)
                   (fun error =>
                      LoggerError "Error regenerating diet plan:" error
                        (Ret (createErrorResponse error
                                (Some "Failed to regenerate diet plan"))))) w1).
  rewrite run_try_catch_awaitProg.
  pose proof (generateDiet_saved_plans h w1
                (DietService.updatedDto existingPlan modifications)) as Hg.
  fold g in Hg. unfold trace in *.
  destruct (run h g w1) as [[a w2] t]. exact Hg.
Qed.

(** X22: from the path parameter to the store: when the parameter starts
    with an integer between 1000 and 5000 and the plan is found, the
    controller's run saves one plan, the stored plan adjusted to that
    integer, under the stored plan's id. *)
Theorem adjustCalories_end_to_end :
  forall (W : Type) (h : Handler W) (w : W) (id : string)
         (calories : JS.code_units) (existingPlan : DietPlan.t),
    Spec.hasLeadingDigits calories = true ->
    1000 <= Spec.leadingInteger calories <= 5000 ->
    fst (h _ (GetDietPlan id) w) = Returned (Some existingPlan) ->
    exists plan : DietPlan.t,
      savedDietPlans (trace (run h (DietController.adjustCalories id calories) w))
      = [plan] /\
      plan = DietService.adjustedPlan existingPlan
               (JS.of_Z (Spec.leadingInteger calories)) /\
      JS.toInteger (DietPlan.totalCalories plan) = Some (Spec.leadingInteger calories) /\
      DietPlan.id plan = DietPlan.id existingPlan.
Proof.
  intros W h w id calories existingPlan Hdigits Hrange Hfound.
  exists (DietService.adjustedPlan existingPlan (JS.of_Z (Spec.leadingInteger calories))).
  rewrite adjustCalories_accepts by assumption.
  split; [apply adjustCalories_saves, Hfound |].
  split; [reflexivity |].
  split; [apply toInteger_of_Z, Hrange | reflexivity].
Qed.

Lemma adjustCalories_end_to_end_witness :
  exists plan : DietPlan.t,
    savedDietPlans
      (trace (run Sample.handler (DietController.adjustCalories "p1" (JS.units "1500abc"))
                  (Sample.world (Sample.num 2000)))) = [plan] /\
    plan = DietService.adjustedPlan (Sample.plan (Sample.num 2000))
             (JS.of_Z (Spec.leadingInteger (JS.units "1500abc"))) /\
    JS.toInteger (DietPlan.totalCalories plan)
    = Some (Spec.leadingInteger (JS.units "1500abc")) /\
    DietPlan.id plan = DietPlan.id (Sample.plan (Sample.num 2000)).
Proof.
  apply (adjustCalories_end_to_end Sample.World Sample.handler
           (Sample.world (Sample.num 2000)) "p1" (JS.units "1500abc")
           (Sample.plan (Sample.num 2000))).
  - reflexivity.
  - vm_compute. split; discriminate.
  - reflexivity.
Defined.

(** ** Falsy fiber and NaN in the aggregate *)

(** X23: the aggregate reads a meal's fiber only through [fiber || 0]:
    making every falsy fiber (0 or NaN) undefined, as the adjustment does
    with 0, leaves the aggregate as it is. *)
Theorem calculateTotalMacros_without_falsy_fiber :
  forall meals : list Meal.t,
    DietService.calculateTotalMacros (map withoutFalsyFiber meals)
    = DietService.calculateTotalMacros meals.
Proof.
  intros meals. unfold DietService.calculateTotalMacros.
  generalize {| TotalMacros.protein := JS.zero; TotalMacros.carbs := JS.zero;
                TotalMacros.fat := JS.zero; TotalMacros.fiber := JS.zero |}.
  induction meals as [| m meals IH]; intros acc; [reflexivity |].
  cbn [map fold_left]. rewrite <- IH. f_equal.
  destruct m as [name items totalCalories [protein carbs fat [[s | s | | s mf e] |]]];
    reflexivity.
Qed.

Lemma add_nan_l (x : JS.number) : JS.add JS.NaN x = JS.NaN.
Proof. destruct x; reflexivity. Qed.

Lemma add_nan_r (x : JS.number) : JS.add x JS.NaN = JS.NaN.
Proof. destruct x; reflexivity. Qed.

(** X24: a NaN among the protein, carbs or fat of the meals makes the
    corresponding total NaN, wherever the meal stands. *)
Theorem calculateTotalMacros_nan :
  forall (meals : list Meal.t) (m : Meal.t),
    In m meals ->
    (Macros.protein (Meal.macros m) = JS.NaN ->
     TotalMacros.protein (DietService.calculateTotalMacros meals) = JS.NaN) /\
    (Macros.carbs (Meal.macros m) = JS.NaN ->
     TotalMacros.carbs (DietService.calculateTotalMacros meals) = JS.NaN) /\
    (Macros.fat (Meal.macros m) = JS.NaN ->
     TotalMacros.fat (DietService.calculateTotalMacros meals) = JS.NaN).
Proof.
  intros meals m Hin.
  destruct (calculateTotalMacros_sums meals) as (Hp & Hc & Hf & _).
  rewrite Hp, Hc, Hf. clear Hp Hc Hf.
  assert (G : forall (f : Meal.t -> JS.number) (l : list Meal.t) (acc : JS.number),
             (acc = JS.NaN \/ (In m l /\ f m = JS.NaN)) ->
             fold_left JS.add (map f l) acc = JS.NaN).
  { intros f l. induction l as [| x l IH]; intros acc H; simpl.
    - destruct H as [H | [[] _]]. exact H.
    - apply IH. destruct H as [-> | [[-> | Hl] Hm]].
      + left. apply add_nan_l.
      + left. rewrite Hm. apply add_nan_r.
      + right. split; assumption. }
  repeat split; intros Hnan; apply G; right; split; assumption.
Qed.

Lemma calculateTotalMacros_nan_witness :
  let m := {| Meal.name := "Unknown"; Meal.items := []; Meal.totalCalories := JS.zero;
              Meal.macros := {| Macros.protein := JS.NaN; Macros.carbs := JS.NaN;
                                Macros.fat := JS.NaN; Macros.fiber := None |} |} in
  let meals := [Sample.breakfast; m; Sample.lunch] in
  (Macros.protein (Meal.macros m) = JS.NaN ->
   TotalMacros.protein (DietService.calculateTotalMacros meals) = JS.NaN) /\
  (Macros.carbs (Meal.macros m) = JS.NaN ->
   TotalMacros.carbs (DietService.calculateTotalMacros meals) = JS.NaN) /\
  (Macros.fat (Meal.macros m) = JS.NaN ->
   TotalMacros.fat (DietService.calculateTotalMacros meals) = JS.NaN).
Proof.
  apply (calculateTotalMacros_nan
           [Sample.breakfast;
            {| Meal.name := "Unknown"; Meal.items := []; Meal.totalCalories := JS.zero;
               Meal.macros := {| Macros.protein := JS.NaN; Macros.carbs := JS.NaN;
                                 Macros.fat := JS.NaN; Macros.fiber := None |} |};
            Sample.lunch]).
  simpl. right. left. reflexivity.
Defined.
